(** * Soft-Braille-Keyboard maintenance scripts

    A shallow embedding of the three command-line scripts under
    [scripts/]:

    - [duplication.py]: scan a liblouis translation table (following
      [include] lines) and print the Braille codes assigned to more than one
      character;
    - [find_combination.py]: print the file and line of a table mapping a
      given Braille code;
    - [compare.py]: print the string names declared in only one of two
      [strings.xml] files.

    The scripts are Python 2 scripts ([compare.py] uses [dict.has_key] and
    sorts the list returned by [dict.keys]), so a [str] is a byte string:
    it is modelled by [string], whose characters are the 256 [ascii] values.
    A file system is a partial map from paths to file contents; the process
    arguments [sys.argv] are a list of strings.  Recursion through [include]
    lines is unbounded in the scripts; the embedding counts it down on a
    [fuel] argument and has a third outcome, [OutOfFuel], next to a returned
    value and a raised exception. *)

From Stdlib Require Import Ascii NArith.
From stdpp Require Import base option list gmap strings pretty sorting.

(** ** Outcomes of fallible code *)

Inductive exn : Set :=
  | IOError        (* open() of a missing or unreadable file *)
  | IndexError     (* list index out of range *)
  | ValueError     (* int() of a malformed literal, str.index() not found *)
  | OverflowError. (* the c format of an integer outside range(256) *)

Inductive res (A : Type) : Type :=
  | Ret (a : A)
  | Raise (e : exn)
  | OutOfFuel.
Arguments Ret {A} a.
Arguments Raise {A} e.
Arguments OutOfFuel {A}.

(** The exception monad, with stdpp's notation [x ← m; k]. *)
Global Instance res_ret : MRet res := λ A a, Ret a.
Global Instance res_bind : MBind res := λ A B k m,
  match m with
  | Ret a => k a
  | Raise e => Raise e
  | OutOfFuel => OutOfFuel
  end.

(** [for x in xs: body], the loop state threaded through the iterations,
    an exception or the end of the fuel leaving the loop at once. *)
Fixpoint for_each {A S : Type} (body : A → S → res S) (xs : list A) (st : S)
    : res S :=
  match xs with
  | [] => Ret st
  | x :: xs' => st' ← body x st; for_each body xs' st'
  end.

(** [xs[i]] of a Python list. *)
Definition index {A : Type} (xs : list A) (i : nat) : res A :=
  match xs !! i with
  | Some x => Ret x
  | None => Raise IndexError
  end.

(** ** Python 2 [str] methods *)

Module Py.

(** [s.startswith(p)] *)
Definition startswith (s p : string) : bool := String.prefix p s.

(** [c.isspace()] in the C locale: tab, newline, vertical tab, form feed,
    carriage return and space, which is [Ascii.is_space]. *)
Definition isspace : ascii → bool := Ascii.is_space.

(** [s.split()]: the maximal runs of non-whitespace characters. *)
Definition split_ws : string → list string := String.words.

Fixpoint lstrip (s : string) : string :=
  match s with
  | String a s' => if isspace a then lstrip s' else s
  | EmptyString => EmptyString
  end.

Fixpoint rstrip (s : string) : string :=
  match s with
  | String a s' =>
      match rstrip s' with
      | EmptyString => if isspace a then EmptyString else String a EmptyString
      | r => String a r
      end
  | EmptyString => EmptyString
  end.

(** [s.strip()] *)
Definition strip (s : string) : string := rstrip (lstrip s).

Definition lower_ascii (a : ascii) : ascii :=
  let n := N_of_ascii a in
  if ((65 <=? n) && (n <=? 90))%N then ascii_of_N (n + 32) else a.

(** [s.lower()] *)
Fixpoint lower (s : string) : string :=
  match s with
  | String a s' => String (lower_ascii a) (lower s')
  | EmptyString => EmptyString
  end.

(** [s.split(sep)] for a non-empty [sep]: the pieces between the
    occurrences of [sep], found from the left and not overlapping.
    [skip] counts the characters of a separator still to be passed. *)
Fixpoint split_go (sep : string) (skip : nat) (s : string) : list string :=
  match s with
  | EmptyString => [EmptyString]
  | String a s' =>
      match skip with
      | S k => split_go sep k s'
      | O =>
          if String.prefix sep s
          then EmptyString :: split_go sep (String.length sep - 1) s'
          else match split_go sep 0 s' with
               | p :: ps => String a p :: ps
               | [] => [String a EmptyString]
               end
      end
  end.

Definition split (s sep : string) : list string := split_go sep 0 s.

(** [f.readlines()], and the iteration [for line in f]: the lines of the
    file, each with its terminating newline, the last one maybe without. *)
Fixpoint readlines (s : string) : list string :=
  match s with
  | EmptyString => []
  | String a s' =>
      if Ascii.eqb a "010"
      then String a EmptyString :: readlines s'
      else match readlines s' with
           | l :: ls => String a l :: ls
           | [] => [String a EmptyString]
           end
  end.

(** [s.index(sub, start)]: the position of the first occurrence of [sub]
    in [s] at or after [start], [ValueError] when there is none. *)
Definition index_from (s sub : string) (start : nat) : res nat :=
  match String.index start sub s with
  | Some i => Ret i
  | None => Raise ValueError
  end.

(** [s[start:end]] for [0 <= start] and [0 <= end] *)
Definition slice (s : string) (start stop : nat) : string :=
  String.substring start (stop - start) s.

(** The value of a hexadecimal digit. *)
Definition hex_digit (a : ascii) : option N :=
  let n := N_of_ascii a in
  if ((48 <=? n) && (n <=? 57))%N then Some (n - 48)%N
  else if ((97 <=? n) && (n <=? 102))%N then Some (n - 87)%N
  else if ((65 <=? n) && (n <=? 70))%N then Some (n - 55)%N
  else None.

Fixpoint hex_digits (acc : N) (s : string) : option N :=
  match s with
  | EmptyString => Some acc
  | String a s' =>
      match hex_digit a with
      | Some d => hex_digits (16 * acc + d) s'
      | None => None
      end
  end.

(** [int("0x" + item, 16)]: surrounding whitespace is dropped, the [0x]
    prefix is passed, and at least one hexadecimal digit has to follow and
    nothing else (no sign can follow the prefix). *)
Definition int_0x (item : string) : res N :=
  match strip ("0x" +:+ item) with
  | String "0" (String "x" (String a ds)) =>
      match hex_digits 0 (String a ds) with
      | Some n => Ret n
      | None => Raise ValueError
      end
  | _ => Raise ValueError
  end.

(** ["%c" % n]: in Python 2 the one-byte string of that byte, and
    [OverflowError] outside [range(256)]. *)
Definition format_c (n : N) : res string :=
  if (n <? 256)%N then Ret (String (ascii_of_N n) EmptyString)
  else Raise OverflowError.

(** [str(n)] and ["%d" % n] for a natural number *)
Definition str_of_nat (n : nat) : string := pretty n.

End Py.

(** ** The environment of a run *)

(** The files present, by path, with their contents; [open] of a path that
    is not there raises [IOError]. *)
Definition filesystem : Type := string → option string.

Definition open (fs : filesystem) (file : string) : res string :=
  match fs file with
  | Some content => Ret content
  | None => Raise IOError
  end.

(** What a run leaves behind: the lines printed on standard output, and how
    it ended ([Ret ()] for a normal exit, [Raise e] for an uncaught [e]). *)
Definition run : Type := list string * res ().

(** ** [duplication.py] *)

(** The dictionaries [{"file": ..., "character": ...}] appended to the
    lists of [result]. *)
Record producer : Set := Producer { file : string; character : string }.

Global Instance producer_eq_dec : EqDecision producer.
Proof. solve_decision. Defined.

Module Duplication.
Section Duplication.

Variable fs : filesystem.
Variable argv : list string.

(** The body of the loop of [scanFile]; [rec] is [scanFile] itself. *)
Definition scanFile_body
    (rec : string → gmap string (list producer) → res (gmap string (list producer)))
    (file : string) (ln : string) (result : gmap string (list producer))
    : res (gmap string (list producer)) :=
  let line := Py.split_ws ln in
  if length line <=? 0 then Ret result else
  l0 ← index line 0;
  if Py.startswith l0 "#" then Ret result else
  if Py.startswith (Py.strip l0) "include" then
    if length argv <=? 2 then
      l1 ← index line 1;
      rec (Py.strip l1) result
    else Ret result
  else if 3 <=? length line then
    l1 ← index line 1;
    l2 ← index line 2;
    let entry := {| file := file; character := Py.strip l1 |} in
    match result !! Py.strip l2 with
    | None => Ret (<[Py.strip l2 := [entry]]> result)
    | Some entries => Ret (<[Py.strip l2 := entries ++ [entry]]> result)
    end
  else Ret result.

Fixpoint scanFile (fuel : nat) (file : string)
    (result : gmap string (list producer))
    : res (gmap string (list producer)) :=
  match fuel with
  | O => OutOfFuel
  | S fuel' =>
      content ← open fs file;
      for_each (scanFile_body (scanFile fuel') file)
               (Py.readlines content) result
  end.

(** The decoding of a character token in the report loop: a token that
    starts with [\x] once lowered is cut at every [\x], and each piece
    after the first is read as a hexadecimal number and turned into the
    character of that code. *)
Definition decode_item (item : string) (symbol : string) : res string :=
  n ← Py.int_0x item;
  c ← Py.format_c n;
  Ret (symbol +:+ c).

Definition decode_symbol (symbol : string) : res string :=
  if Py.startswith (Py.lower symbol) "\x" then
    let list := drop 1 (Py.split (Py.lower symbol) "\x") in
    for_each decode_item list ""
  else Ret symbol.

(** One iteration of the loop over [result[key]]: the [try] block and its
    [except].  The state is [symbols] and the lines printed so far.  The
    separating space is added before the decoding, so it stays when the
    decoding raises. *)
Definition report_entry (st : string * list string) (symbolDict : producer)
    : string * list string :=
  let symbols := st.1 in
  let symbols :=
    if 0 <? String.length symbols then symbols +:+ " " else symbols in
  match decode_symbol (character symbolDict) with
  | Ret symbol => (symbols +:+ (symbol +:+ " " +:+ file symbolDict), st.2)
  | Raise _ | OutOfFuel => (symbols, st.2 ++ ["error"])
  end.

Definition tab : string := String "009" "".

(** One iteration of the loop over [result.keys()]. *)
Definition report_key (result : gmap string (list producer))
    (out : list string) (key : string) : list string :=
  let entries := default [] (result !! key) in
  if 1 <? length entries then
    let st := foldl report_entry ("", out) entries in
    st.2 ++ [key +:+ tab +:+ st.1]
  else out.

(** The report loop.  [result.keys()] is in no specified order in
    Python 2; here it is the order of [map_to_list]. *)
Definition report (result : gmap string (list producer)) : list string :=
  foldl (report_key result) [] (map_to_list result).*1.

(** The script: [result = {}; scanFile(sys.argv[1], result)] and the
    report loop. *)
Definition main (fuel : nat) : run :=
  match (root ← index argv 1; scanFile fuel root ∅) with
  | Ret result => (report result, Ret ())
  | Raise e => ([], Raise e)
  | OutOfFuel => ([], OutOfFuel)
  end.

End Duplication.
End Duplication.

(** ** [find_combination.py] *)

(** How an iteration of a loop with a [return] in it ends. *)
Inductive flow : Set :=
  | Next                    (* on to the next iteration, or past the loop *)
  | Return (value : string).

Module FindCombination.
Section FindCombination.

Variable fs : filesystem.
Variable argv : list string.

(** The body of the loop of [scan], after [lineNumber += 1]; [rec] is
    [scan] itself.  The value of the recursive call on an [include] line
    is dropped. *)
Definition scan_body (rec : string → res string) (file : string)
    (lineNumber : nat) (ln : string) : res flow :=
  let line := Py.split_ws ln in
  if length line <=? 0 then Ret Next else
  l0 ← index line 0;
  if Py.startswith l0 "#" then Ret Next else
  if Py.startswith (Py.strip l0) "include" then
    l1 ← index line 1;
    _ ← rec (Py.strip l1);
    Ret Next
  else if 1 <? length line then
    l1 ← index line 1;
    code ← index argv 1;
    if String.eqb (Py.strip l1) code
    then Ret (Return (file +:+ " " +:+ Py.str_of_nat lineNumber))
    else if 2 <? length line then
      l2 ← index line 2;
      code ← index argv 1;
      if String.eqb (Py.strip l2) code
      then Ret (Return (file +:+ " " +:+ Py.str_of_nat lineNumber))
      else Ret Next
    else Ret Next
  else Ret Next.

(** The loop over the lines; [lineNumber] is its value before the line. *)
Fixpoint scan_loop (rec : string → res string) (file : string)
    (lines : list string) (lineNumber : nat) : res flow :=
  match lines with
  | [] => Ret Next
  | ln :: lines' =>
      let lineNumber := lineNumber + 1 in
      f ← scan_body rec file lineNumber ln;
      match f with
      | Return value => Ret (Return value)
      | Next => scan_loop rec file lines' lineNumber
      end
  end.

Fixpoint scan (fuel : nat) (file : string) : res string :=
  match fuel with
  | O => OutOfFuel
  | S fuel' =>
      content ← open fs file;
      f ← scan_loop (scan fuel') file (Py.readlines content) 0;
      match f with
      | Return value => Ret value
      | Next => Ret ""
      end
  end.

(** The script: [print (scan(sys.argv[2]))]. *)
Definition main (fuel : nat) : run :=
  match (root ← index argv 2; scan fuel root) with
  | Ret value => ([value], Ret ())
  | Raise e => ([], Raise e)
  | OutOfFuel => ([], OutOfFuel)
  end.

End FindCombination.
End FindCombination.

(** ** [compare.py] *)

Module Compare.
Section Compare.

Variable fs : filesystem.
Variable argv : list string.

Definition dquote : string := String "034" "".

(** [getName(s)]: the text between the first double quote at or after
    the first [name=] followed by a double quote in [s], and the next
    double quote. *)
Definition getName (s : string) : res string :=
  start ← Py.index_from s ("name=" +:+ dquote) 0;
  start ← (i ← Py.index_from s dquote start; Ret (i + 1));
  stop ← Py.index_from s dquote start;
  Ret (Py.slice s start stop).

(** The body of the loops filling [f1Dict] and [f2Dict]; the state is the
    counter [i] and the dictionary. *)
Definition load_body (line : string) (st : nat * gmap string nat)
    : res (nat * gmap string nat) :=
  let i := st.1 + 1 in
  if Py.startswith (Py.strip line) "<string name=" then
    name ← getName line;
    Ret (i, <[name := i]> st.2)
  else Ret (i, st.2).

Definition load (content : string) : res (gmap string nat) :=
  st ← for_each load_body (Py.readlines content) (0, ∅);
  Ret st.2.

(** The loop filling [results] from the names of [d1] that [d2] lacks:
    [results[d1[key]] = key]. *)
Definition collect (d1 d2 : gmap string nat) : gmap nat string :=
  foldl (λ results key,
           if bool_decide (is_Some (d2 !! key)) then results
           else <[d1 !!! key := key]> results)
        ∅ (map_to_list d1).*1.

(** [keys = results.keys(); keys.sort()] and the printing loop. *)
Definition print_sorted (results : gmap nat string) : list string :=
  let keys := merge_sort (≤) (map_to_list results).*1 in
  (λ key, (results !!! key) +:+ " on line " +:+ Py.str_of_nat key) <$> keys.

Definition header (path : string) : string :=
  "The following strings are only contained in " +:+ path +:+ ".".

Definition section (d1 d2 : gmap string nat) : list string :=
  print_sorted (collect d1 d2).

Definition main : run :=
  match (a1 ← index argv 1;
         f1 ← open fs a1;
         a2 ← index argv 2;
         f2 ← open fs a2;
         f1Dict ← load f1;
         f2Dict ← load f2;
         Ret (a1, a2, f1Dict, f2Dict)) with
  | Ret (a1, a2, f1Dict, f2Dict) =>
      ([header a1] ++ section f1Dict f2Dict ++
       [header a2] ++ section f2Dict f1Dict, Ret ())
  | Raise e => ([], Raise e)
  | OutOfFuel => ([], OutOfFuel)
  end.

End Compare.
End Compare.

(** ** Auxiliary notions for the statements *)

(** Whether a string holds a whitespace character. *)
Fixpoint has_space (s : string) : bool :=
  match s with
  | String a s' => Py.isspace a || has_space s'
  | EmptyString => false
  end.

(** ["".join(pieces)] *)
Definition join (pieces : list string) : string := foldr String.append "" pieces.

(** [r2] is [r1], or [r1] ran out of fuel: more fuel keeps an outcome. *)
Definition refines {A : Type} (r1 r2 : res A) : Prop :=
  r1 ≠ OutOfFuel → r2 = r1.

(** A file system given by a table of paths and contents. *)
Fixpoint files (table : list (string * string)) : filesystem := λ path,
  match table with
  | [] => None
  | (p, content) :: table' =>
      if String.eqb path p then Some content else files table' path
  end.

Definition nl : string := String "010" "".

(** The text of a file from its lines, each one ended by a newline. *)
Definition text (lines : list string) : string :=
  join ((λ l, l +:+ nl) <$> lines).

(** The tables of the example of the specification: [a.tbl] includes
    [b.tbl] and then maps [a] to the code [61], [b.tbl] maps [a] to [61]. *)
Definition a_tbl : string := text ["include b.tbl"; "char \x61 61"].
Definition b_tbl : string := text ["char \x61 61"].
Definition tables_ab : filesystem := files [("a.tbl", a_tbl); ("b.tbl", b_tbl)].

(** The search of the combination finder as the specification words it:
    the records are searched in file order, every [include] is entered,
    and a hit inside an included file ends the whole search with that hit. *)
Module FinderSpec.
Section FinderSpec.

Variable fs : filesystem.
Variable code : string.

Definition search_body (rec : string → res (option (string * nat)))
    (file : string) (lineNumber : nat) (ln : string)
    : res (option (string * nat)) :=
  match Py.split_ws ln with
  | [] => Ret None
  | l0 :: fields =>
      if Py.startswith l0 "#" then Ret None
      else if String.eqb l0 "include" then
        l1 ← index fields 0; rec l1
      else if bool_decide (fields !! 0 = Some code ∨ fields !! 1 = Some code)
        then Ret (Some (file, lineNumber))
        else Ret None
  end.

Fixpoint search_loop (rec : string → res (option (string * nat)))
    (file : string) (lines : list string) (lineNumber : nat)
    : res (option (string * nat)) :=
  match lines with
  | [] => Ret None
  | ln :: lines' =>
      hit ← search_body rec file (lineNumber + 1) ln;
      match hit with
      | Some h => Ret (Some h)
      | None => search_loop rec file lines' (lineNumber + 1)
      end
  end.

Fixpoint first_hit (fuel : nat) (file : string) : res (option (string * nat)) :=
  match fuel with
  | O => OutOfFuel
  | S fuel' =>
      content ← open fs file;
      search_loop (first_hit fuel') file (Py.readlines content) 0
  end.

End FinderSpec.
End FinderSpec.

(** A table whose only line includes [b.tbl]. *)
Definition tables_nested : filesystem :=
  files [("a.tbl", text ["include b.tbl"]); ("b.tbl", b_tbl)].

(** [result[code]] gets one more producer, the list being created when
    [code] is new: what [scanFile] does with a record. *)
Definition add_record (result : gmap string (list producer))
    (r : string * producer) : gmap string (list producer) :=
  match result !! r.1 with
  | None => <[r.1 := [r.2]]> result
  | Some entries => <[r.1 := entries ++ [r.2]]> result
  end.

(** ** The records of a table, includes inlined *)

(** The records that [scanFile] meets on a table, in the order it meets
    them, an included table being read where its [include] line stands, as
    if its contents were written there.  A record is kept as its code and
    its producer. *)
Module Closure.
Section Closure.

Variable fs : filesystem.
Variable argv : list string.

Definition records_body (rec : string → res (list (string * producer)))
    (file ln : string) : res (list (string * producer)) :=
  match Py.split_ws ln with
  | [] => Ret []
  | l0 :: fields =>
      if Py.startswith l0 "#" then Ret []
      else if Py.startswith l0 "include" then
        if length argv <=? 2 then l1 ← index fields 0; rec l1 else Ret []
      else match fields with
           | l1 :: l2 :: _ => Ret [(l2, Producer file l1)]
           | _ => Ret []
           end
  end.

Fixpoint records_lines (rec : string → res (list (string * producer)))
    (file : string) (lines : list string) : res (list (string * producer)) :=
  match lines with
  | [] => Ret []
  | ln :: lines' =>
      rs ← records_body rec file ln;
      rest ← records_lines rec file lines';
      Ret (rs ++ rest)
  end.

Fixpoint records (fuel : nat) (file : string)
    : res (list (string * producer)) :=
  match fuel with
  | O => OutOfFuel
  | S fuel' =>
      content ← open fs file;
      records_lines (records fuel') file (Py.readlines content)
  end.

End Closure.
End Closure.

(** The producers of a code among records, in the order of the records. *)
Definition producers (code : string) (recs : list (string * producer))
    : list producer :=
  (filter (λ r, r.1 = code) recs).*2.

(** ** The report, entry by entry *)

(** The text of a producer in a report line, when its character token can
    be decoded. *)
Definition entry_text (p : producer) : option string :=
  match Duplication.decode_symbol (character p) with
  | Ret symbol => Some (symbol +:+ " " +:+ file p)
  | Raise _ | OutOfFuel => None
  end.

(** The producers from the first one that can be decoded on. *)
Fixpoint from_first_text (ps : list producer) : list producer :=
  match ps with
  | [] => []
  | p :: ps' =>
      match entry_text p with
      | Some _ => ps
      | None => from_first_text ps'
      end
  end.

(** The texts of the producers that can be decoded, in their order and
    with a space between two producers; a producer that cannot be decoded
    after one that can leaves its space and an empty text. *)
Definition symbols_of (ps : list producer) : string :=
  String.concat " " (default "" ∘ entry_text <$> from_first_text ps).

(** The producers that cannot be decoded. *)
Definition undecodable (ps : list producer) : list producer :=
  filter (λ p, entry_text p = None) ps.

(** What the report prints for a code and its producers. *)
Definition lines_of (kv : string * list producer) : list string :=
  if 1 <? length kv.2
  then replicate (length (undecodable kv.2)) "error" ++
       [kv.1 +:+ Duplication.tab +:+ symbols_of kv.2]
  else [].

(** The code of a report line: what stands before its first tab. *)
Fixpoint key_of (line : string) : option string :=
  match line with
  | EmptyString => None
  | String a line' =>
      if Ascii.eqb a "009" then Some EmptyString
      else String a <$> key_of line'
  end.

(** ** Tables without their comment lines *)

(** A comment line: its first field starts with [#]. *)
Definition is_comment_line (ln : string) : bool :=
  match Py.split_ws ln with
  | l0 :: _ => Py.startswith l0 "#"
  | [] => false
  end.

(** The contents of a file with the comment lines taken out. *)
Definition remove_comments (content : string) : string :=
  join (filter (λ ln, is_comment_line ln = false) (Py.readlines content)).

(** The file system in which the files chosen by [which] have lost their
    comment lines. *)
Definition without_comments (which : string → bool) (fs : filesystem)
    : filesystem := λ path,
  if which path then remove_comments <$> fs path else fs path.

(** ** The files that a run tries to open *)

(** [scanner_opens_missing fs argv file]: the scan of [file] comes to open
    a file that is not there.  Either [file] itself is missing, or the scan
    of its lines reaches, after lines read without an exception, an
    [include] line that is followed (there is no second argument) and names
    a file whose scan comes to open a missing file. *)
Inductive scanner_opens_missing (fs : filesystem) (argv : list string)
    : string → Prop :=
  | scanner_missing file :
      fs file = None → scanner_opens_missing fs argv file
  | scanner_include file content pre ln post l0 l1 fields fuel recs :
      fs file = Some content →
      Py.readlines content = pre ++ ln :: post →
      Closure.records_lines argv (Closure.records fs argv fuel) file pre = Ret recs →
      Py.split_ws ln = l0 :: l1 :: fields →
      Py.startswith l0 "#" = false →
      Py.startswith l0 "include" = true →
      length argv ≤ 2 →
      scanner_opens_missing fs argv l1 →
      scanner_opens_missing fs argv file.

(** The same for the finder, which follows every [include] line that it
    reaches: the lines before it are read without an exception and without
    a hit. *)
Inductive finder_opens_missing (fs : filesystem) (argv : list string)
    : string → Prop :=
  | finder_missing file :
      fs file = None → finder_opens_missing fs argv file
  | finder_include file content pre ln post l0 l1 fields fuel :
      fs file = Some content →
      Py.readlines content = pre ++ ln :: post →
      FindCombination.scan_loop argv (FindCombination.scan fs argv fuel)
        file pre 0 = Ret Next →
      Py.split_ws ln = l0 :: l1 :: fields →
      Py.startswith l0 "#" = false →
      Py.startswith l0 "include" = true →
      finder_opens_missing fs argv l1 →
      finder_opens_missing fs argv file.

(** Tables around a missing file: [a.tbl] includes [b.tbl], which includes
    [c.tbl], which is not there. *)
Definition tables_missing : filesystem :=
  files [("a.tbl", text ["sign a 1"; "include b.tbl"]);
         ("b.tbl", text ["include c.tbl"])].

(** A root table that names a missing file and maps two characters to the
    code [1]. *)
Definition tables_unfollowed : filesystem :=
  files [("a.tbl", text ["sign a 1"; "include missing.tbl"; "sign b 1"])].

(** ** The names that a [strings.xml] file declares *)

(** A line that [compare.py] takes for a string declaration. *)
Definition is_declaration (line : string) : bool :=
  Py.startswith (Py.strip line) "<string name=".

(** The name of a declaration line as the specification words it: the text
    between the double quote of the first [name=] followed by a double
    quote, and the next double quote.  It is read off the characters of the
    line from the left, without the searches of [getName]. *)

(** [s] without its prefix [p], when it starts with [p]. *)
Fixpoint strip_prefix (p s : string) : option string :=
  match p, s with
  | EmptyString, _ => Some s
  | String a p', String b s' =>
      if Ascii.eqb a b then strip_prefix p' s' else None
  | String _ _, EmptyString => None
  end.

(** What follows the first occurrence of [pat] in [s]. *)
Fixpoint after_first (pat s : string) : option string :=
  match strip_prefix pat s with
  | Some rest => Some rest
  | None =>
      match s with
      | String _ s' => after_first pat s'
      | EmptyString => None
      end
  end.

(** What stands before the first [c] of [s]. *)
Fixpoint until_char (c : ascii) (s : string) : option string :=
  match s with
  | String a s' =>
      if Ascii.eqb a c then Some EmptyString else String a <$> until_char c s'
  | EmptyString => None
  end.

Definition quoted_name (line : string) : option string :=
  after_first (String "n" (String "a" (String "m" (String "e" (String "="
                 (String "034" EmptyString)))))) line
    ≫= until_char "034".

(** Line [n] of [lines], counted from 1, declares [name]. *)
Definition declares_at (lines : list string) (n : nat) (name : string) : Prop :=
  ∃ i line, n = S i ∧ lines !! i = Some line ∧
            is_declaration line = true ∧ quoted_name line = Some name.

(** Line [n] is the last line of [lines] that declares [name]. *)
Definition last_declares_at (lines : list string) (n : nat) (name : string)
    : Prop :=
  declares_at lines n name ∧ ∀ m, declares_at lines m name → m ≤ n.

(** The file of contents [content] declares [name]. *)
Definition declared (content name : string) : Prop :=
  ∃ n, declares_at (Py.readlines content) n name.

(** A computation that returns a value. *)
Definition returns {A : Type} (r : res A) : Prop :=
  match r with
  | Ret _ => True
  | Raise _ | OutOfFuel => False
  end.

Global Instance returns_dec {A : Type} (r : res A) : Decision (returns r).
Proof. destruct r; simpl; apply _. Defined.

(** Every declaration line of the file has a name that [getName] finds. *)
Definition well_formed (content : string) : Prop :=
  Forall (λ line, is_declaration line = true → returns (Compare.getName line))
         (Py.readlines content).

(** Every declaration line of the file has a quoted name. *)
Definition well_quoted (content : string) : Prop :=
  Forall (λ line, is_declaration line = true → is_Some (quoted_name line))
         (Py.readlines content).

(** The line printed for a name and its line number. *)
Definition entry (e : nat * string) : string :=
  e.2 +:+ " on line " +:+ Py.str_of_nat e.1.

(** [sec] lists, by ascending line number, the names that [c1] declares
    and [c2] does not, each once and with the number of the last line of
    [c1] that declares it. *)
Definition only_in (c1 c2 : string) (sec : list (nat * string)) : Prop :=
  StronglySorted lt sec.*1 ∧
  ∀ n name, (n, name) ∈ sec ↔
            last_declares_at (Py.readlines c1) n name ∧ ¬ declared c2 name.

(** Two [strings.xml] files: the first declares [zeta] twice and [alpha],
    the second [alpha] and [beta]. *)
Definition strings_1 : string :=
  text ["<resources>";
        "  <string name=" +:+ Compare.dquote +:+ "zeta" +:+ Compare.dquote +:+ ">Z</string>";
        "  <string name=" +:+ Compare.dquote +:+ "alpha" +:+ Compare.dquote +:+ ">A</string>";
        "  <string name=" +:+ Compare.dquote +:+ "zeta" +:+ Compare.dquote +:+ ">z</string>";
        "</resources>"].
Definition strings_2 : string :=
  text ["<resources>";
        "  <string name=" +:+ Compare.dquote +:+ "alpha" +:+ Compare.dquote +:+ ">a</string>";
        "  <string name=" +:+ Compare.dquote +:+ "beta" +:+ Compare.dquote +:+ ">B</string>";
        "</resources>"].
Definition strings_files : filesystem :=
  files [("values/strings.xml", strings_1); ("values-de/strings.xml", strings_2)].

(** ** Include cycles *)

(** [cyc] is a set of tables closed under one inclusion: each of them is
    there and has, after lines that the scanner reads without an exception,
    an [include] line naming a table of [cyc]. *)
Definition scanner_cycle (fs : filesystem) (argv : list string)
    (cyc : string → Prop) : Prop :=
  ∀ file, cyc file →
    ∃ content pre ln post l0 l1 fields fuel0 recs,
      fs file = Some content ∧
      Py.readlines content = pre ++ ln :: post ∧
      Closure.records_lines argv (Closure.records fs argv fuel0) file pre = Ret recs ∧
      Py.split_ws ln = l0 :: l1 :: fields ∧
      Py.startswith l0 "#" = false ∧
      Py.startswith l0 "include" = true ∧
      cyc l1.

(** The same for the finder: the lines before the [include] line are read
    without an exception and without a hit. *)
Definition finder_cycle (fs : filesystem) (argv : list string)
    (cyc : string → Prop) : Prop :=
  ∀ file, cyc file →
    ∃ content pre ln post l0 l1 fields fuel0,
      fs file = Some content ∧
      Py.readlines content = pre ++ ln :: post ∧
      FindCombination.scan_loop argv (FindCombination.scan fs argv fuel0)
        file pre 0 = Ret Next ∧
      Py.split_ws ln = l0 :: l1 :: fields ∧
      Py.startswith l0 "#" = false ∧
      Py.startswith l0 "include" = true ∧
      cyc l1.

(** Two tables that include each other. *)
Definition tables_cycle : filesystem :=
  files [("a.tbl", text ["sign a 1"; "include b.tbl"; "sign b 1"]);
         ("b.tbl", text ["# back"; "include a.tbl"])].

(** ** The lines of the root table in the finder *)

(** An [include] line: not a comment, and its first field starts with
    [include]. *)
Definition is_include_line (ln : string) : bool :=
  match Py.split_ws ln with
  | l0 :: _ => negb (Py.startswith l0 "#") && Py.startswith l0 "include"
  | [] => false
  end.

(** A line on which the finder returns: neither a comment nor an [include]
    line, with [code] as its second or its third field. *)
Definition is_hit (code ln : string) : bool :=
  match Py.split_ws ln with
  | l0 :: l1 :: fields =>
      negb (Py.startswith l0 "#") && negb (Py.startswith l0 "include") &&
      (String.eqb l1 code ||
       match fields with
       | l2 :: _ => String.eqb l2 code
       | [] => false
       end)
  | _ => false
  end.

(** What the finder returns from the lines of [file] alone: the file and
    the number of the first hit among [lines], counted on from
    [lineNumber], and the empty string when there is none. *)
Fixpoint own_hit (code file : string) (lines : list string) (lineNumber : nat)
    : string :=
  match lines with
  | [] => ""
  | ln :: lines' =>
      if is_hit code ln
      then file +:+ " " +:+ Py.str_of_nat (lineNumber + 1)
      else own_hit code file lines' (lineNumber + 1)
  end.

(** ** Declaration lines *)

(** Whether a string is made of whitespace only. *)
Fixpoint all_space (s : string) : bool :=
  match s with
  | String a s' => Py.isspace a && all_space s'
  | EmptyString => true
  end.

(** Whether a character occurs in a string. *)
Fixpoint has_char (c : ascii) (s : string) : bool :=
  match s with
  | String a s' => Ascii.eqb a c || has_char c s'
  | EmptyString => false
  end.

(** A line of a [strings.xml] file that declares [name]: the indentation,
    the opening of the [string] element with its [name] attribute in double
    quotes, and the rest of the line. *)
Definition declaration (indent name rest : string) : string :=
  indent +:+ "<string name=" +:+ Compare.dquote +:+ name +:+ Compare.dquote +:+ rest.

(** A declaration line whose quote is not closed: nothing after the opening
    quote is a double quote. *)
Definition unclosed_declaration (indent tail : string) : string :=
  indent +:+ "<string name=" +:+ Compare.dquote +:+ tail.

Global Instance well_formed_dec content : Decision (well_formed content).
Proof. unfold well_formed. apply _. Defined.

(** * Properties *)

(** ** The exception monad and the loops *)

Lemma for_each_app {A S : Type} (body : A → S → res S) (xs ys : list A) st :
  for_each body (xs ++ ys) st = for_each body xs st ≫= for_each body ys.
Proof.
  revert st. induction xs as [|x xs IH]; intros st; [done|].
  simpl. destruct (body x st) as [st'| |]; simpl; [apply IH|done..].
Qed.

(** ** Strings *)

Lemma has_space_rev_app s1 s2 :
  has_space (String.rev_app s1 s2) = has_space s1 || has_space s2.
Proof.
  revert s2. induction s1 as [|a s1 IH]; intros s2; [done|].
  simpl. rewrite IH. simpl. by destruct (Py.isspace a), (has_space s1).
Qed.

Lemma words_go_no_space s cur :
  (∀ c, cur = Some c → has_space c = false) →
  Forall (λ w, has_space w = false) (String.words_go cur s).
Proof.
  revert cur. induction s as [|a s IH]; intros cur Hcur; simpl.
  - destruct cur as [c|]; simpl; [|constructor].
    constructor; [|constructor]. unfold String.rev.
    rewrite has_space_rev_app, (Hcur c); done.
  - destruct (Ascii.is_space a) eqn:Ha.
    + apply Forall_app. split; [|by apply IH].
      destruct cur as [c|]; simpl; [|constructor].
      constructor; [|constructor]. unfold String.rev.
      rewrite has_space_rev_app, (Hcur c); done.
    + apply IH. intros c [= <-]. destruct cur as [c'|]; simpl.
      * unfold Py.isspace. by rewrite Ha, (Hcur c').
      * unfold Py.isspace. by rewrite Ha.
Qed.

(** The fields of a line hold no whitespace ... *)
Lemma split_ws_no_space s : Forall (λ w, has_space w = false) (Py.split_ws s).
Proof. apply words_go_no_space. done. Qed.

Lemma lstrip_no_space s : has_space s = false → Py.lstrip s = s.
Proof. destruct s as [|a s]; simpl; [done|]. by intros [-> _]%orb_false_elim. Qed.

Lemma rstrip_no_space s : has_space s = false → Py.rstrip s = s.
Proof.
  induction s as [|a s IH]; simpl; [done|].
  intros [Ha Hs]%orb_false_elim. rewrite (IH Hs), Ha. by destruct s.
Qed.

(** ... so that [strip] leaves them as they are. *)
Lemma strip_no_space s : has_space s = false → Py.strip s = s.
Proof.
  intros Hs. unfold Py.strip. by rewrite (lstrip_no_space s Hs), rstrip_no_space.
Qed.

Lemma strip_field ln i (w : string) : Py.split_ws ln !! i = Some w → Py.strip w = w.
Proof.
  intros Hw. apply strip_no_space.
  by apply (proj1 (Forall_lookup _ _) (split_ws_no_space ln) i w).
Qed.

(** ** Hexadecimal escapes *)

Lemma app_String a s1 s2 : String a s1 +:+ s2 = String a (s1 +:+ s2).
Proof. reflexivity. Qed.

Lemma app_empty_r s : s +:+ "" = s.
Proof. induction s as [|a s IH]; [done|]. by rewrite app_String, IH. Qed.

Lemma app_assoc_s s1 s2 s3 : (s1 +:+ s2) +:+ s3 = s1 +:+ (s2 +:+ s3).
Proof. induction s1 as [|a s1 IH]; [done|]. by rewrite !app_String, IH. Qed.

Lemma prefix_String a s1 b s2 :
  String.prefix (String a s1) (String b s2) = bool_decide (a = b) && String.prefix s1 s2.
Proof.
  cbn [String.prefix]. destruct (ascii_dec a b) as [->|Hne].
  - by rewrite bool_decide_eq_true_2.
  - by rewrite bool_decide_eq_false_2.
Qed.

Lemma lower_app s1 s2 : Py.lower (s1 +:+ s2) = Py.lower s1 +:+ Py.lower s2.
Proof.
  induction s1 as [|a s1 IH]; [done|].
  rewrite app_String. simpl. by rewrite IH, app_String.
Qed.

Lemma hex_digit_lower a : Py.hex_digit (Py.lower_ascii a) = Py.hex_digit a.
Proof. by destruct a as [[] [] [] [] [] [] [] []]. Qed.

Lemma hex_digits_lower acc s : Py.hex_digits acc (Py.lower s) = Py.hex_digits acc s.
Proof.
  revert acc. induction s as [|a s IH]; intros acc; simpl; [done|].
  rewrite hex_digit_lower. by destruct (Py.hex_digit a).
Qed.

Lemma split_go_cons sep skip s : ∃ p ps, Py.split_go sep skip s = p :: ps.
Proof.
  revert skip. induction s as [|a s IH]; intros skip; cbn [Py.split_go]; [eauto|].
  destruct skip as [|k]; [|apply IH].
  destruct (String.prefix sep (String a s)); [eauto|].
  destruct (IH 0) as (p & ps & ->). eauto.
Qed.

(** A run of hexadecimal digits holds no backslash: the cut is after it. *)
Lemma split_go_hex acc n item rest :
  Py.hex_digits acc item = Some n →
  Py.split_go "\x" 0 (item +:+ rest) =
    match Py.split_go "\x" 0 rest with
    | p :: ps => (item +:+ p) :: ps
    | [] => [item]
    end.
Proof.
  revert acc. induction item as [|a item IH]; intros acc Hhex.
  - change ("" +:+ rest) with rest.
    by destruct (split_go_cons "\x" 0 rest) as (p & ps & ->).
  - simpl in Hhex. destruct (Py.hex_digit a) as [d|] eqn:Hd; [|done].
    rewrite app_String.
    assert (String.prefix "\x" (String a (item +:+ rest)) = false) as Hpre.
    { rewrite prefix_String. case_bool_decide as Ha; [|done]. by subst a. }
    cbn [Py.split_go]. rewrite Hpre, (IH _ Hhex).
    destruct (split_go_cons "\x" 0 rest) as (p & ps & ->).
    by rewrite app_String.
Qed.

Lemma split_go_escape rest :
  Py.split_go "\x" 0 ("\x" +:+ rest) = "" :: Py.split_go "\x" 0 rest.
Proof.
  rewrite !app_String. cbn [Py.split_go].
  rewrite !prefix_String, !bool_decide_eq_true_2 by done.
  by destruct rest.
Qed.

Lemma split_escapes (items : list string) :
  Forall (λ item, ∃ n, Py.hex_digits 0 item = Some n) items →
  Py.split_go "\x" 0 (join (String.append "\x" <$> items)) = "" :: items.
Proof.
  induction 1 as [|item items [n Hn] _ IH]; [done|].
  change (join (String.append "\x" <$> item :: items))
    with ("\x" +:+ item +:+ join (String.append "\x" <$> items)).
  rewrite split_go_escape, (split_go_hex _ _ _ _ Hn).
  f_equal. destruct items as [|item' items].
  - simpl. by rewrite app_empty_r.
  - rewrite IH. by rewrite app_empty_r.
Qed.

Lemma hex_digit_not_space a d : Py.hex_digit a = Some d → Py.isspace a = false.
Proof. by destruct a as [[] [] [] [] [] [] [] []]. Qed.

Lemma hex_digits_no_space acc s n :
  Py.hex_digits acc s = Some n → has_space s = false.
Proof.
  revert acc. induction s as [|a s IH]; intros acc; simpl; [done|].
  destruct (Py.hex_digit a) as [d|] eqn:Hd; [|done].
  intros Hs. by rewrite (hex_digit_not_space a d Hd), (IH _ Hs).
Qed.

(** A non-empty run of hexadecimal digits for a byte is read as that byte,
    in either case of the letters. *)
Lemma decode_item_hex item c symbol :
  item ≠ "" → Py.hex_digits 0 item = Some (N_of_ascii c) →
  Duplication.decode_item (Py.lower item) symbol = Ret (symbol +:+ String c "").
Proof.
  intros Hne Hhex. unfold Duplication.decode_item, Py.int_0x.
  rewrite <-hex_digits_lower in Hhex.
  rewrite strip_no_space
    by (rewrite !app_String; simpl; change ("" +:+ Py.lower item) with (Py.lower item);
        by rewrite (hex_digits_no_space _ _ _ Hhex)).
  destruct (Py.lower item) as [|a ds] eqn:Hl.
  { destruct item; [done|discriminate Hl]. }
  rewrite !app_String. change ("" +:+ String a ds) with (String a ds).
  cbv beta iota. rewrite Hhex. cbn [mbind res_bind]. unfold Py.format_c.
  destruct (N_of_ascii c <? 256)%N eqn:Hlt.
  - by rewrite ascii_N_embedding.
  - apply N.ltb_ge in Hlt. pose proof (N_ascii_bounded c). lia.
Qed.

Lemma decode_items_hex items cs symbol :
  Forall2 (λ item c, item ≠ "" ∧ Py.hex_digits 0 item = Some (N_of_ascii c))
          items cs →
  for_each Duplication.decode_item (Py.lower <$> items) symbol =
    Ret (symbol +:+ String.string_of_list_ascii cs).
Proof.
  intros H. revert symbol.
  induction H as [|item c items cs [Hne Hhex] _ IH]; intros symbol.
  - simpl. by rewrite app_empty_r.
  - cbn [fmap list_fmap for_each]. rewrite (decode_item_hex _ _ _ Hne Hhex).
    cbn [mbind res_bind]. rewrite IH. simpl. by rewrite app_assoc_s.
Qed.

Lemma lower_escapes items :
  Py.lower (join (String.append "\x" <$> items)) =
    join (String.append "\x" <$> (Py.lower <$> items)).
Proof.
  induction items as [|item items IH]; [done|].
  cbn [fmap list_fmap join foldr]. fold (join (String.append "\x" <$> items)).
  fold (join (String.append "\x" <$> (Py.lower <$> items))).
  by rewrite !lower_app, IH.
Qed.

(** C8: the decoding of the report loop turns [\x41] into [A] and
    [\x41\x42] into [AB]; in general a token made of [\x]-introduced
    components, each a non-empty run of hexadecimal digits for a byte, is
    decoded into the characters of these bytes, in the order of the
    components. *)
Theorem decode_symbol_hex_escapes :
  Duplication.decode_symbol "\x41" = Ret "A" ∧
  Duplication.decode_symbol "\x41\x42" = Ret "AB" ∧
  ∀ (items : list string) (cs : list ascii),
    items ≠ [] →
    Forall2 (λ item c, item ≠ "" ∧ Py.hex_digits 0 item = Some (N_of_ascii c))
            items cs →
    Duplication.decode_symbol (join (String.append "\x" <$> items)) =
      Ret (String.string_of_list_ascii cs).
Proof.
  split; [done|]. split; [done|].
  intros items cs Hne Hitems. unfold Duplication.decode_symbol, Py.split.
  rewrite lower_escapes.
  assert (Forall (λ item, ∃ n, Py.hex_digits 0 item = Some n) (Py.lower <$> items))
    as Hhex.
  { apply Forall_fmap. eapply Forall2_Forall_l; [exact Hitems|].
    apply Forall_true. intros c item [_ H]. simpl.
    rewrite hex_digits_lower. eauto. }
  rewrite (split_escapes _ Hhex). cbn [drop].
  destruct items as [|item items]; [done|].
  replace (Py.startswith _ "\x") with true.
  - by rewrite (decode_items_hex _ _ _ Hitems).
  - cbn [fmap list_fmap join foldr]. unfold Py.startswith.
    rewrite !app_String, !prefix_String, !bool_decide_eq_true_2 by done.
    simpl. by destruct (_ +:+ _).
Qed.

Lemma decode_symbol_hex_escapes_witness :
  Duplication.decode_symbol (join (String.append "\x" <$> ["4A"; "0041"; "7e"]))
    = Ret "JA~".
Proof.
  apply (proj2 (proj2 decode_symbol_hex_escapes) ["4A"; "0041"; "7e"]
           ["J"; "A"; "~"]%char); [done|].
  repeat constructor; done.
Defined.

(** ** The example tables *)

(** C5: on [a.tbl], which includes [b.tbl] and then maps [\x61] to [61],
    with [b.tbl] mapping [\x61] to [61]: without a second argument the
    report is the one line of the code [61] with two producers, the one of
    [b.tbl] and the one of [a.tbl]; with a second argument, whatever it is
    and whatever the other files are (present or not), the scan ends with
    the one record of [a.tbl] under [61] and nothing is reported. *)
Theorem duplication_example_ab :
  (∀ n, Duplication.scanFile tables_ab ["duplication.py"; "a.tbl"] (S (S n))
          "a.tbl" ∅ =
        Ret {[ "61" := [Producer "b.tbl" "\x61"; Producer "a.tbl" "\x61"] ]}) ∧
  (∀ n, Duplication.main tables_ab ["duplication.py"; "a.tbl"] (S (S n)) =
        (["61" +:+ Duplication.tab +:+ "a b.tbl a a.tbl"], Ret ())) ∧
  (∀ (others : filesystem) (flag : string) n,
     let fs := λ path, if String.eqb path "a.tbl" then Some a_tbl
                       else others path in
     let argv := ["duplication.py"; "a.tbl"; flag] in
     Duplication.scanFile fs argv (S n) "a.tbl" ∅ =
       Ret {[ "61" := [Producer "a.tbl" "\x61"] ]} ∧
     Duplication.main fs argv (S n) = ([], Ret ())).
Proof.
  split; [|split].
  - intros n. vm_compute. reflexivity.
  - intros n. vm_compute. reflexivity.
  - intros others flag n. split; vm_compute; reflexivity.
Qed.

(** ** The combination finder *)

Lemma scan_loop_app argv rec file pre rest n :
  FindCombination.scan_loop argv rec file (pre ++ rest) n =
    f ← FindCombination.scan_loop argv rec file pre n;
    match f with
    | Return value => Ret (Return value)
    | Next => FindCombination.scan_loop argv rec file rest (n + length pre)
    end.
Proof.
  revert n. induction pre as [|ln pre IH]; intros n.
  - simpl. by rewrite Nat.add_0_r.
  - cbn [app FindCombination.scan_loop length].
    destruct (FindCombination.scan_body argv rec file (n + 1) ln) as [[|v]| |];
      cbn [mbind res_bind]; [|done..].
    rewrite IH. by replace (n + 1 + length pre) with (n + S (length pre)) by lia.
Qed.

(** The body of the loop on a line of fields [l0 :: fields] that is no
    comment. *)
Lemma scan_body_fields argv rec file n ln l0 fields :
  Py.split_ws ln = l0 :: fields → Py.startswith l0 "#" = false →
  FindCombination.scan_body argv rec file n ln =
    if Py.startswith l0 "include" then
      l1 ← index fields 0; _ ← rec l1; Ret Next
    else
      match fields with
      | [] => Ret Next
      | l1 :: fields' =>
          code ← index argv 1;
          if String.eqb l1 code
          then Ret (Return (file +:+ " " +:+ Py.str_of_nat n))
          else match fields' with
               | [] => Ret Next
               | l2 :: _ =>
                   if String.eqb l2 code
                   then Ret (Return (file +:+ " " +:+ Py.str_of_nat n))
                   else Ret Next
               end
      end.
Proof.
  intros Hsplit Hcomment. unfold FindCombination.scan_body.
  pose proof (strip_field ln 0 l0) as H0.
  pose proof (strip_field ln 1) as H1. pose proof (strip_field ln 2) as H2.
  rewrite Hsplit in *. cbn [length Nat.leb index lookup list_lookup mbind res_bind].
  rewrite Hcomment, H0 by done.
  destruct (Py.startswith l0 "include").
  { destruct fields as [|l1 fields]; [done|]. simpl. by rewrite (H1 l1). }
  destruct fields as [|l1 fields]; [done|]. simpl in H1. simpl.
  rewrite (H1 l1) by done.
  unfold index. destruct (argv !! 1) as [code|] eqn:Hcode; [|done]. simpl.
  destruct (String.eqb l1 code); [done|].
  destruct fields as [|l2 fields]; [done|]. simpl. by rewrite (H2 l2).
Qed.

(** C10: a line of exactly two fields that is neither a comment nor an
    [include] line, and whose second field is the code looked for, is a hit:
    when the lines before it in the root file are passed without a hit, the
    finder prints the root file and the number of that line. *)
Theorem finder_two_field_hit (fs : filesystem) prog code root fuel
    content pre ln post l0 :
  fs root = Some content →
  Py.readlines content = pre ++ ln :: post →
  FindCombination.scan_loop [prog; code; root]
    (FindCombination.scan fs [prog; code; root] fuel) root pre 0 = Ret Next →
  Py.split_ws ln = [l0; code] →
  Py.startswith l0 "#" = false →
  Py.startswith l0 "include" = false →
  FindCombination.main fs [prog; code; root] (S fuel) =
    ([root +:+ " " +:+ Py.str_of_nat (length pre + 1)], Ret ()).
Proof.
  intros Hfile Hlines Hpre Hsplit Hcomment Hinclude.
  unfold FindCombination.main. cbn [index lookup list_lookup mbind res_bind].
  cbn [FindCombination.scan]. unfold open. rewrite Hfile.
  cbn [mbind res_bind]. rewrite Hlines, scan_loop_app, Hpre.
  cbn [mbind res_bind FindCombination.scan_loop].
  rewrite (scan_body_fields _ _ _ _ _ _ _ Hsplit Hcomment), Hinclude.
  cbn [index lookup list_lookup mbind res_bind]. by rewrite String.eqb_refl.
Qed.

Lemma finder_two_field_hit_witness :
  FindCombination.main (files [("t.tbl", text ["# digits"; ""; "sign 3456"; "x 1"])])
    ["find_combination.py"; "3456"; "t.tbl"] 1 = (["t.tbl 3"], Ret ()).
Proof.
  apply (finder_two_field_hit _ _ "3456" "t.tbl" 0
           (text ["# digits"; ""; "sign 3456"; "x 1"])
           ["# digits" +:+ nl; nl] ("sign 3456" +:+ nl) ["x 1" +:+ nl] "sign");
    reflexivity.
Defined.

(** What [scan] returns is empty or names the file it was called on: a hit
    found by a recursive call is never what the caller returns. *)
Lemma scan_loop_own_file argv rec file lines n value :
  FindCombination.scan_loop argv rec file lines n = Ret (Return value) →
  ∃ k, value = file +:+ " " +:+ Py.str_of_nat k.
Proof.
  revert n. induction lines as [|ln lines IH]; intros n; [done|].
  cbn [FindCombination.scan_loop].
  destruct (FindCombination.scan_body argv rec file (n + 1) ln)
    as [[|v]| |] eqn:Hbody; cbn [mbind res_bind]; [apply IH|..|done|done].
  intros [= ->]. revert Hbody. unfold FindCombination.scan_body.
  repeat (first [ progress cbn [mbind res_bind]
                | match goal with
                  | |- context [if ?b then _ else _] => destruct b
                  | |- context [index ?l ?i] => destruct (index l i)
                  | |- context [rec ?f] => destruct (rec f)
                  end ]);
    try done; intros [= <-]; eauto.
Qed.

Lemma scan_own_file fs argv fuel file value :
  FindCombination.scan fs argv fuel file = Ret value →
  value = "" ∨ ∃ k, value = file +:+ " " +:+ Py.str_of_nat k.
Proof.
  destruct fuel as [|fuel]; [done|]. cbn [FindCombination.scan].
  destruct (open fs file) as [content| |]; cbn [mbind res_bind]; [|done..].
  destruct (FindCombination.scan_loop _ _ _ _ _) as [[|v]| |] eqn:Hloop;
    cbn [mbind res_bind]; [|intros [= <-]|done..].
  - intros [= <-]. by left.
  - right. eapply scan_loop_own_file, Hloop.
Qed.

(** C1 on the example tables: the code [61] is first met on line 1 of
    [b.tbl], which [a.tbl] includes on its line 1, and this is what the
    search of the specification finds; the finder prints line 2 of [a.tbl],
    and prints an empty line when [a.tbl] holds the [include] line alone. *)
Theorem finder_drops_nested_hit n :
  FinderSpec.first_hit tables_ab "61" (S (S n)) "a.tbl" = Ret (Some ("b.tbl", 1)) ∧
  FindCombination.main tables_ab ["find_combination.py"; "61"; "a.tbl"] (S (S n)) =
    (["a.tbl 2"], Ret ()) ∧
  FinderSpec.first_hit tables_nested "61" (S (S n)) "a.tbl" = Ret (Some ("b.tbl", 1)) ∧
  FindCombination.main tables_nested ["find_combination.py"; "61"; "a.tbl"] (S (S n)) =
    ([""], Ret ()).
Proof. repeat split; vm_compute; reflexivity. Qed.

(** ** The lines of a table in the duplicate scanner *)

Lemma scanFile_body_skip argv rec file ln result :
  match Py.split_ws ln with
  | [] => True
  | l0 :: _ => Py.startswith l0 "#" = true
  end →
  Duplication.scanFile_body argv rec file ln result = Ret result.
Proof.
  unfold Duplication.scanFile_body.
  destruct (Py.split_ws ln) as [|l0 fields]; [done|].
  cbn [length Nat.leb index lookup list_lookup mbind res_bind]. by intros ->.
Qed.

(** The body of the loop on a line of fields [l0 :: fields] that is no
    comment. *)
Lemma scanFile_body_fields argv rec file ln result l0 fields :
  Py.split_ws ln = l0 :: fields → Py.startswith l0 "#" = false →
  Duplication.scanFile_body argv rec file ln result =
    if Py.startswith l0 "include" then
      if length argv <=? 2 then l1 ← index fields 0; rec l1 result
      else Ret result
    else
      match fields with
      | l1 :: l2 :: _ => Ret (add_record result (l2, Producer file l1))
      | _ => Ret result
      end.
Proof.
  intros Hsplit Hcomment. unfold Duplication.scanFile_body.
  pose proof (strip_field ln 0 l0) as H0.
  pose proof (strip_field ln 1) as H1. pose proof (strip_field ln 2) as H2.
  rewrite Hsplit in *. cbn [length Nat.leb index lookup list_lookup mbind res_bind].
  rewrite Hcomment, H0 by done.
  destruct (Py.startswith l0 "include").
  { destruct (length argv <=? 2); [|done].
    destruct fields as [|l1 fields]; [done|]. simpl. by rewrite (H1 l1). }
  destruct fields as [|l1 [|l2 fields]]; [done..|]. simpl.
  rewrite (H1 l1), (H2 l2) by done. unfold add_record. simpl.
  by destruct (result !! l2).
Qed.

(** C2, as the scripts have it: a line that is neither blank nor a comment
    is taken as an inclusion directive exactly when its first field starts
    with [include].  Such a line is never recorded: the finder calls itself
    on the second field and goes on, the scanner calls itself on the second
    field when there is no second argument and skips the line when there is
    one.  Any other line makes no recursive call in either script, and the
    scanner records it when it has three fields or more. *)
Theorem include_line_by_prefix argv ln l0 fields :
  Py.split_ws ln = l0 :: fields → Py.startswith l0 "#" = false →
  (Py.startswith l0 "include" = true →
     (∀ rec file result,
        Duplication.scanFile_body argv rec file ln result =
          if length argv <=? 2 then l1 ← index fields 0; rec l1 result
          else Ret result) ∧
     (∀ rec file n,
        FindCombination.scan_body argv rec file n ln =
          l1 ← index fields 0; _ ← rec l1; Ret Next)) ∧
  (Py.startswith l0 "include" = false →
     (∀ rec file result,
        Duplication.scanFile_body argv rec file ln result =
          match fields with
          | l1 :: l2 :: _ => Ret (add_record result (l2, Producer file l1))
          | _ => Ret result
          end) ∧
     (∀ rec rec' file n,
        FindCombination.scan_body argv rec file n ln =
        FindCombination.scan_body argv rec' file n ln)).
Proof.
  intros Hsplit Hcomment. split; intros Hinclude; split; intros.
  - by rewrite (scanFile_body_fields _ _ _ _ _ _ _ Hsplit Hcomment), Hinclude.
  - by rewrite (scan_body_fields _ _ _ _ _ _ _ Hsplit Hcomment), Hinclude.
  - by rewrite (scanFile_body_fields _ _ _ _ _ _ _ Hsplit Hcomment), Hinclude.
  - by rewrite !(scan_body_fields _ _ _ _ _ _ _ Hsplit Hcomment), Hinclude.
Qed.

Lemma include_line_by_prefix_witness :
  (∀ rec file result,
     Duplication.scanFile_body ["duplication.py"; "a.tbl"] rec file
       "include b.tbl" result = rec "b.tbl" result) ∧
  (∀ rec file n,
     FindCombination.scan_body ["duplication.py"; "a.tbl"] rec file n
       "include b.tbl" = _ ← rec "b.tbl"; Ret Next).
Proof.
  apply (include_line_by_prefix ["duplication.py"; "a.tbl"] "include b.tbl"
           "include" ["b.tbl"]); reflexivity.
Defined.

(** The first field [includes] is not the keyword [include], and the line
    is an inclusion directive all the same: both scripts call themselves on
    [b.tbl], and the scanner reports the records of [b.tbl] and does not
    record the line, which has three fields. *)
Lemma include_keyword_counterexample :
  Py.split_ws "includes b.tbl 12" !! 0 = Some "includes" ∧
  "includes" ≠ "include" ∧
  (∀ rec file result,
     Duplication.scanFile_body ["duplication.py"; "a.tbl"] rec file
       "includes b.tbl 12" result = rec "b.tbl" result) ∧
  (∀ rec file n,
     FindCombination.scan_body ["find_combination.py"; "12"; "a.tbl"] rec file n
       "includes b.tbl 12" = _ ← rec "b.tbl"; Ret Next) ∧
  Duplication.main
    (files [("a.tbl", text ["includes b.tbl 12"]);
            ("b.tbl", text ["char a 12"; "char b 12"])])
    ["duplication.py"; "a.tbl"] 2 =
    (["12" +:+ Duplication.tab +:+ "a b.tbl b b.tbl"], Ret ()).
Proof. repeat split; done. Qed.

(** ** More fuel *)

Lemma refines_refl {A : Type} (r : res A) : refines r r.
Proof. by intros _. Qed.

Lemma refines_bind {A B : Type} (m1 m2 : res A) (k1 k2 : A → res B) :
  refines m1 m2 → (∀ a, refines (k1 a) (k2 a)) →
  refines (m1 ≫= k1) (m2 ≫= k2).
Proof.
  intros Hm Hk. destruct m1 as [a| |]; simpl.
  - rewrite Hm by done. apply Hk.
  - by rewrite Hm.
  - by intros [].
Qed.

Lemma refines_for_each {A S : Type} (body1 body2 : A → S → res S) xs st :
  (∀ x s, refines (body1 x s) (body2 x s)) →
  refines (for_each body1 xs st) (for_each body2 xs st).
Proof.
  intros Hbody. revert st. induction xs as [|x xs IH]; intros st.
  - apply refines_refl.
  - simpl. apply refines_bind; [apply Hbody|apply IH].
Qed.

Lemma scanFile_body_refines argv rec1 rec2 file ln result :
  (∀ f r, refines (rec1 f r) (rec2 f r)) →
  refines (Duplication.scanFile_body argv rec1 file ln result)
          (Duplication.scanFile_body argv rec2 file ln result).
Proof.
  intros Hrec. unfold Duplication.scanFile_body.
  repeat (first [ apply refines_refl | apply Hrec
                | apply refines_bind; [|intros ?]
                | match goal with
                  | |- context [if ?b then _ else _] => destruct b
                  end ]).
Qed.

Lemma scanFile_refines fs argv fuel fuel' file result :
  fuel ≤ fuel' →
  refines (Duplication.scanFile fs argv fuel file result)
          (Duplication.scanFile fs argv fuel' file result).
Proof.
  revert fuel' file result. induction fuel as [|fuel IH];
    intros fuel' file result Hle; [by intros []|].
  destruct fuel' as [|fuel']; [lia|]. cbn [Duplication.scanFile].
  apply refines_bind; [apply refines_refl|]. intros content.
  apply refines_for_each. intros ln r. apply scanFile_body_refines.
  intros f r'. apply IH. lia.
Qed.

Lemma records_body_refines argv rec1 rec2 file ln :
  (∀ f, refines (rec1 f) (rec2 f)) →
  refines (Closure.records_body argv rec1 file ln)
          (Closure.records_body argv rec2 file ln).
Proof.
  intros Hrec. unfold Closure.records_body.
  repeat (first [ apply refines_refl | apply Hrec
                | apply refines_bind; [|intros ?]
                | match goal with
                  | |- context [if ?b then _ else _] => destruct b
                  | |- context [match ?l with [] => _ | _ :: _ => _ end] =>
                      destruct l
                  end ]).
Qed.

Lemma records_lines_refines argv rec1 rec2 file lines :
  (∀ f, refines (rec1 f) (rec2 f)) →
  refines (Closure.records_lines argv rec1 file lines)
          (Closure.records_lines argv rec2 file lines).
Proof.
  intros Hrec. induction lines as [|ln lines IH]; [apply refines_refl|].
  cbn [Closure.records_lines]. apply refines_bind.
  - by apply records_body_refines.
  - intros rs. apply refines_bind; [apply IH|]. intros. apply refines_refl.
Qed.

Lemma records_refines fs argv fuel fuel' file :
  fuel ≤ fuel' →
  refines (Closure.records fs argv fuel file) (Closure.records fs argv fuel' file).
Proof.
  revert fuel' file. induction fuel as [|fuel IH];
    intros fuel' file Hle; [by intros []|].
  destruct fuel' as [|fuel']; [lia|]. cbn [Closure.records].
  apply refines_bind; [apply refines_refl|]. intros content.
  apply records_lines_refines. intros f. apply IH. lia.
Qed.

Lemma scan_body_refines argv rec1 rec2 file n ln :
  (∀ f, refines (rec1 f) (rec2 f)) →
  refines (FindCombination.scan_body argv rec1 file n ln)
          (FindCombination.scan_body argv rec2 file n ln).
Proof.
  intros Hrec. unfold FindCombination.scan_body.
  repeat (first [ apply refines_refl | apply Hrec
                | apply refines_bind; [|intros ?]
                | match goal with
                  | |- context [if ?b then _ else _] => destruct b
                  end ]).
Qed.

Lemma scan_loop_refines argv rec1 rec2 file lines n :
  (∀ f, refines (rec1 f) (rec2 f)) →
  refines (FindCombination.scan_loop argv rec1 file lines n)
          (FindCombination.scan_loop argv rec2 file lines n).
Proof.
  intros Hrec. revert n. induction lines as [|ln lines IH]; intros n;
    [apply refines_refl|].
  cbn [FindCombination.scan_loop]. apply refines_bind.
  - by apply scan_body_refines.
  - intros [|v]; [apply IH|apply refines_refl].
Qed.

Lemma scan_refines fs argv fuel fuel' file :
  fuel ≤ fuel' →
  refines (FindCombination.scan fs argv fuel file)
          (FindCombination.scan fs argv fuel' file).
Proof.
  revert fuel' file. induction fuel as [|fuel IH];
    intros fuel' file Hle; [by intros []|].
  destruct fuel' as [|fuel']; [lia|]. cbn [FindCombination.scan].
  apply refines_bind; [apply refines_refl|]. intros content.
  apply refines_bind; [|intros; apply refines_refl].
  apply scan_loop_refines. intros f. apply IH. lia.
Qed.

(** ** The scan and the records of the closure *)

Lemma bind_assoc_res {A B C : Type} (m : res A) (k : A → res B) (h : B → res C) :
  (m ≫= k) ≫= h = m ≫= (λ a, k a ≫= h).
Proof. by destruct m. Qed.

Lemma scanFile_body_records argv rec rec' file ln result :
  (∀ f r, rec f r = rs ← rec' f; Ret (foldl add_record r rs)) →
  Duplication.scanFile_body argv rec file ln result =
    rs ← Closure.records_body argv rec' file ln;
    Ret (foldl add_record result rs).
Proof.
  intros Hrec. unfold Closure.records_body.
  destruct (Py.split_ws ln) as [|l0 fields] eqn:Hsplit.
  { apply scanFile_body_skip. by rewrite Hsplit. }
  destruct (Py.startswith l0 "#") eqn:Hcomment.
  { apply scanFile_body_skip. by rewrite Hsplit. }
  rewrite (scanFile_body_fields _ _ _ _ _ _ _ Hsplit Hcomment).
  destruct (Py.startswith l0 "include").
  - destruct (length argv <=? 2); [|done].
    destruct (index fields 0) as [l1| |]; [|done..]. apply Hrec.
  - by destruct fields as [|l1 [|l2 fields]].
Qed.

Lemma scanFile_lines_records argv rec rec' file lines result :
  (∀ f r, rec f r = rs ← rec' f; Ret (foldl add_record r rs)) →
  for_each (Duplication.scanFile_body argv rec file) lines result =
    recs ← Closure.records_lines argv rec' file lines;
    Ret (foldl add_record result recs).
Proof.
  intros Hrec. revert result. induction lines as [|ln lines IH]; intros result;
    [done|].
  cbn [for_each Closure.records_lines].
  rewrite (scanFile_body_records _ _ _ _ _ _ Hrec), !bind_assoc_res.
  destruct (Closure.records_body argv rec' file ln) as [rs| |]; [|done..].
  cbn [mbind res_bind]. rewrite IH, bind_assoc_res.
  destruct (Closure.records_lines argv rec' file lines) as [rest| |]; [|done..].
  cbn [mbind res_bind]. by rewrite foldl_app.
Qed.

(** The dictionary of [scanFile] is the one that the records of the
    closure, added one by one, make. *)
Lemma scanFile_records fs argv fuel file result :
  Duplication.scanFile fs argv fuel file result =
    recs ← Closure.records fs argv fuel file;
    Ret (foldl add_record result recs).
Proof.
  revert file result. induction fuel as [|fuel IH]; intros file result; [done|].
  cbn [Duplication.scanFile Closure.records]. rewrite bind_assoc_res.
  destruct (open fs file) as [content| |]; [|done..]. cbn [mbind res_bind].
  by apply scanFile_lines_records.
Qed.

Lemma add_records_lookup (result : gmap string (list producer)) recs code :
  foldl add_record result recs !! code =
    match result !! code with
    | Some entries => Some (entries ++ producers code recs)
    | None =>
        match producers code recs with
        | [] => None
        | ps => Some ps
        end
    end.
Proof.
  revert result. induction recs as [|[c p] recs IH]; intros result.
  - simpl. destruct (result !! code); [by rewrite app_nil_r|done].
  - cbn [foldl]. rewrite IH. unfold add_record, producers. cbn [fst snd].
    rewrite filter_cons. cbn [fst]. destruct (decide (c = code)) as [->|Hne].
    + destruct (result !! code) as [entries|] eqn:Hres;
        rewrite lookup_insert_eq; [by rewrite <-app_assoc|done].
    + destruct (result !! c); by rewrite lookup_insert_ne.
Qed.

(** The fields of the records hold no whitespace. *)
Lemma records_body_no_space argv rec file ln rs :
  (∀ f rs', rec f = Ret rs' → Forall (λ r, has_space r.1 = false) rs') →
  Closure.records_body argv rec file ln = Ret rs →
  Forall (λ r, has_space r.1 = false) rs.
Proof.
  intros Hrec. unfold Closure.records_body.
  pose proof (split_ws_no_space ln) as Hfields.
  destruct (Py.split_ws ln) as [|l0 fields]; [by intros [= <-]|].
  destruct (Py.startswith l0 "#"); [by intros [= <-]|].
  destruct (Py.startswith l0 "include").
  - destruct (length argv <=? 2); [|by intros [= <-]].
    destruct (index fields 0) as [l1| |]; [|done..]. apply Hrec.
  - destruct fields as [|l1 [|l2 fields]]; intros [= <-]; [done..|].
    constructor; [|done]. simpl.
    by apply Forall_cons_1, proj2, Forall_cons_1, proj2, Forall_cons_1, proj1 in Hfields.
Qed.

Lemma records_lines_no_space argv rec file lines recs :
  (∀ f rs', rec f = Ret rs' → Forall (λ r, has_space r.1 = false) rs') →
  Closure.records_lines argv rec file lines = Ret recs →
  Forall (λ r, has_space r.1 = false) recs.
Proof.
  intros Hrec. revert recs. induction lines as [|ln lines IH]; intros recs.
  - by intros [= <-].
  - cbn [Closure.records_lines].
    destruct (Closure.records_body argv rec file ln) as [rs| |] eqn:Hbody; [|done..].
    destruct (Closure.records_lines argv rec file lines) as [rest| |]; [|done..].
    intros [= <-]. apply Forall_app. split; [|by apply IH].
    eapply records_body_no_space; [apply Hrec|apply Hbody].
Qed.

Lemma records_no_space fs argv fuel file recs :
  Closure.records fs argv fuel file = Ret recs →
  Forall (λ r, has_space r.1 = false) recs.
Proof.
  revert file recs. induction fuel as [|fuel IH]; intros file recs; [done|].
  cbn [Closure.records]. destruct (open fs file) as [content| |]; [|done..].
  cbn [mbind res_bind]. apply records_lines_no_space. apply IH.
Qed.

(** ** The report loop *)

Lemma nonempty_app s t :
  (0 <? String.length (s +:+ t)) = (0 <? String.length s) || (0 <? String.length t).
Proof. by destruct s. Qed.

Lemma concat_space_cons x xs :
  String.concat " " (x :: xs) = x +:+ join (String.append " " <$> xs).
Proof.
  revert x. induction xs as [|y xs IH]; intros x.
  - simpl. by rewrite app_empty_r.
  - change (String.concat " " (x :: y :: xs))
      with (x +:+ " " +:+ String.concat " " (y :: xs)).
    by rewrite IH.
Qed.

Lemma report_entry_text st p :
  Duplication.report_entry st p =
    let symbols :=
      if 0 <? String.length st.1 then st.1 +:+ " " else st.1 in
    match entry_text p with
    | Some t => (symbols +:+ t, st.2)
    | None => (symbols, st.2 ++ ["error"])
    end.
Proof.
  unfold Duplication.report_entry, entry_text.
  by destruct (Duplication.decode_symbol (character p)).
Qed.

Lemma entry_text_nonempty p t : entry_text p = Some t → (0 <? String.length t) = true.
Proof.
  unfold entry_text. destruct (Duplication.decode_symbol _) as [s| |]; [|done..].
  intros [= <-]. rewrite nonempty_app. apply orb_true_r.
Qed.

(** Once [symbols] is not empty every entry adds a space, and its text
    when it has one. *)
Lemma report_entries_started symbols out ps :
  (0 <? String.length symbols) = true →
  foldl Duplication.report_entry (symbols, out) ps =
    (symbols +:+ join (String.append " " <$> (default "" ∘ entry_text <$> ps)),
     out ++ replicate (length (undecodable ps)) "error").
Proof.
  revert symbols out. induction ps as [|p ps IH]; intros symbols out Hne.
  - simpl. by rewrite app_empty_r, app_nil_r.
  - cbn [foldl]. rewrite report_entry_text. cbn [fst snd]. rewrite Hne.
    unfold undecodable. rewrite filter_cons. cbv zeta.
    destruct (entry_text p) as [t|] eqn:Ht.
    + rewrite IH by (by rewrite !nonempty_app, Hne).
      rewrite decide_False by done.
      cbn [fmap list_fmap join foldr compose default].
      rewrite Ht. cbn [default from_option]. by rewrite !app_assoc_s.
    + rewrite IH by (by rewrite !nonempty_app, Hne).
      rewrite decide_True by done.
      cbn [fmap list_fmap join foldr compose default length replicate].
      rewrite Ht. cbn [default from_option]. change (" " +:+ "") with " ".
      by rewrite !app_assoc_s, <-app_assoc.
Qed.

(** The loop over the producers of a code. *)
Lemma report_entries out ps :
  foldl Duplication.report_entry ("", out) ps =
    (symbols_of ps, out ++ replicate (length (undecodable ps)) "error").
Proof.
  revert out. induction ps as [|p ps IH]; intros out.
  - simpl. by rewrite app_nil_r.
  - cbn [foldl]. rewrite report_entry_text. cbn [fst snd String.length Nat.ltb Nat.leb].
    unfold undecodable, symbols_of. rewrite filter_cons. cbv zeta.
    cbn [from_first_text]. destruct (entry_text p) as [t|] eqn:Ht.
    + rewrite report_entries_started by (by rewrite nonempty_app, (entry_text_nonempty p t Ht)).
      rewrite decide_False by done. cbn [fmap list_fmap compose].
      rewrite concat_space_cons, Ht. done.
    + rewrite IH, decide_True by done. cbn [length replicate].
      by rewrite <-app_assoc.
Qed.

Lemma report_key_lines (result : gmap string (list producer)) out key :
  Duplication.report_key result out key =
    out ++ lines_of (key, default [] (result !! key)).
Proof.
  unfold Duplication.report_key, lines_of. cbn [fst snd].
  destruct (1 <? length _); [|by rewrite app_nil_r].
  rewrite report_entries. cbn [fst snd]. by rewrite <-app_assoc.
Qed.

Lemma report_keys_lines (result : gmap string (list producer)) out keys :
  foldl (Duplication.report_key result) out keys =
    out ++ flat_map (λ key, lines_of (key, default [] (result !! key))) keys.
Proof.
  revert out. induction keys as [|key keys IH]; intros out.
  - simpl. by rewrite app_nil_r.
  - cbn [foldl flat_map]. by rewrite IH, report_key_lines, <-app_assoc.
Qed.

(** The whole report, code by code. *)
Lemma report_lines (result : gmap string (list producer)) :
  Duplication.report result = flat_map lines_of (map_to_list result).
Proof.
  unfold Duplication.report. rewrite report_keys_lines. cbn [app].
  assert (∀ kv, kv ∈ map_to_list result → result !! kv.1 = Some kv.2) as Hin.
  { intros [k v] Hkv. by apply elem_of_map_to_list. }
  induction (map_to_list result) as [|[k v] l IH]; [done|].
  cbn [fmap list_fmap flat_map fst].
  pose proof (Hin (k, v) ltac:(left)) as Hk. cbn [fst snd] in Hk.
  rewrite Hk. cbn [default from_option].
  f_equal. apply IH. intros kv Hkv. apply Hin. by right.
Qed.

(** C6: when the scan ends, the run ends normally with the report, and an
    entry whose character token cannot be decoded is passed over: the
    exception stays inside the iteration for that entry, which prints
    [error] and adds neither character nor file to [symbols] (only the
    separating space when [symbols] was started); all the other entries of
    the code, and the other codes, are printed as [lines_of] and
    [symbols_of] say. *)
Theorem undecodable_entry_skipped fs argv fuel root result :
  argv !! 1 = Some root →
  Duplication.scanFile fs argv fuel root ∅ = Ret result →
  Duplication.main fs argv fuel = (flat_map lines_of (map_to_list result), Ret ()) ∧
  ∀ st p,
    entry_text p = None →
    Duplication.report_entry st p =
      (if 0 <? String.length st.1 then st.1 +:+ " " else st.1, st.2 ++ ["error"]).
Proof.
  intros Hroot Hscan. split.
  - unfold Duplication.main, index. rewrite Hroot. cbn [mbind res_bind].
    by rewrite Hscan, report_lines.
  - intros st p Hp. by rewrite report_entry_text, Hp.
Qed.

Lemma undecodable_entry_skipped_witness :
  Duplication.main
    (files [("a.tbl", text ["sign \xzz 56"; "sign \x2e 56"; "sign \x 56";
                            "sign \x2C 56"; "letter z 1356"])])
    ["duplication.py"; "a.tbl"] 1 =
    (["error"; "error"; "56" +:+ Duplication.tab +:+ ". a.tbl  , a.tbl"], Ret ()).
Proof.
  refine (proj1 (undecodable_entry_skipped _ _ 1 "a.tbl"
                   {[ "56" := [Producer "a.tbl" "\xzz"; Producer "a.tbl" "\x2e";
                               Producer "a.tbl" "\x"; Producer "a.tbl" "\x2C"];
                      "1356" := [Producer "a.tbl" "z"] ]} _ _));
    vm_compute; reflexivity.
Defined.

(** ** The lines of a code in the report *)

Lemma key_of_line key rest :
  has_space key = false →
  key_of (key +:+ Duplication.tab +:+ rest) = Some key.
Proof.
  induction key as [|a key IH]; [done|]. cbn [has_space].
  intros [Ha Hkey]%orb_false_elim. rewrite app_String. cbn [key_of].
  destruct (Ascii.eqb_spec a "009") as [->|_]; [done|]. by rewrite IH.
Qed.

Lemma filter_lines_of code (kv : string * list producer) :
  has_space kv.1 = false →
  filter (λ l, key_of l = Some code) (lines_of kv) =
    if decide (kv.1 = code)
    then if 1 <? length kv.2
         then [kv.1 +:+ Duplication.tab +:+ symbols_of kv.2] else []
    else [].
Proof.
  intros Hkey. unfold lines_of. destruct (1 <? length kv.2); [|by case_decide].
  rewrite filter_app. replace (filter _ (replicate _ "error")) with (@nil string).
  - cbn [app]. rewrite filter_cons, filter_nil, key_of_line by done.
    destruct (decide (kv.1 = code)) as [->|Hne].
    + by rewrite decide_True.
    + rewrite decide_False; [done|]. by intros [= ?].
  - induction (length (undecodable kv.2)) as [|n IH]; [done|].
    cbn [replicate]. by rewrite filter_cons, decide_False.
Qed.

Lemma filter_flat_map {A B : Type} (P : B → Prop) `{∀ x, Decision (P x)}
    (f : A → list B) (l : list A) :
  filter P (flat_map f l) = flat_map (λ x, filter P (f x)) l.
Proof.
  induction l as [|x l IH]; [done|]. cbn [flat_map]. by rewrite filter_app, IH.
Qed.

Lemma flat_map_ext_elem {A B : Type} (f g : A → list B) (l : list A) :
  (∀ x, x ∈ l → f x = g x) → flat_map f l = flat_map g l.
Proof.
  induction l as [|x l IH]; [done|]. intros Hfg. cbn [flat_map].
  rewrite (Hfg x) by left. f_equal. apply IH. intros y Hy. apply Hfg. by right.
Qed.

Lemma flat_map_pick_none {V B : Type} (g : string * V → list B) code
    (l : list (string * V)) :
  code ∉ l.*1 →
  flat_map (λ kv, if decide (kv.1 = code) then g kv else []) l = [].
Proof.
  induction l as [|[k v] l IH]; [done|]. cbn [fmap list_fmap flat_map fst].
  intros [Hk Hl]%not_elem_of_cons. by rewrite decide_False, IH.
Qed.

Lemma flat_map_pick_one {V B : Type} (g : string * V → list B) code v
    (l : list (string * V)) :
  NoDup l.*1 → (code, v) ∈ l →
  flat_map (λ kv, if decide (kv.1 = code) then g kv else []) l = g (code, v).
Proof.
  induction l as [|[k v'] l IH]; [by intros _ ?%elem_of_nil|].
  cbn [fmap list_fmap flat_map fst]. intros [Hk Hl]%NoDup_cons Hin.
  apply elem_of_cons in Hin as [[= <- <-]|Hin].
  - by rewrite decide_True, flat_map_pick_none, app_nil_r.
  - rewrite decide_False, IH; [done..|].
    intros ->. apply Hk. apply list_elem_of_fmap. by exists (code, v).
Qed.

Lemma filter_report code (result : gmap string (list producer)) :
  (∀ k ps, result !! k = Some ps → has_space k = false) →
  filter (λ l, key_of l = Some code) (flat_map lines_of (map_to_list result)) =
    match result !! code with
    | Some ps =>
        if 1 <? length ps then [code +:+ Duplication.tab +:+ symbols_of ps] else []
    | None => []
    end.
Proof.
  intros Hkeys. rewrite filter_flat_map.
  rewrite (flat_map_ext_elem _
    (λ kv, if decide (kv.1 = code)
           then if 1 <? length kv.2
                then [kv.1 +:+ Duplication.tab +:+ symbols_of kv.2] else []
           else [])).
  2:{ intros [k ps] Hin. apply filter_lines_of. apply (Hkeys k ps).
      by apply elem_of_map_to_list. }
  destruct (result !! code) as [ps|] eqn:Hcode.
  - by rewrite (flat_map_pick_one _ code ps)
      by (by apply NoDup_fst_map_to_list || by apply elem_of_map_to_list).
  - apply flat_map_pick_none. intros [[k ps] [Hk Hin]]%list_elem_of_fmap.
    simpl in Hk. subst k. apply elem_of_map_to_list in Hin. congruence.
Qed.

(** C3, as the script has it: when the scan ends, with [recs] the records
    of the scanned closure, a code has a line in the report if and only if
    two records or more produce it; it has one line then, and this line
    lists, in the order of the records, the producers whose character token
    can be decoded (the others are left out of the line, see
    [symbols_of]). *)
Theorem duplicates_reported fs argv fuel root recs :
  argv !! 1 = Some root →
  Closure.records fs argv fuel root = Ret recs →
  ∃ out,
    Duplication.main fs argv fuel = (out, Ret ()) ∧
    ∀ code,
      filter (λ l, key_of l = Some code) out =
        if 1 <? length (producers code recs)
        then [code +:+ Duplication.tab +:+ symbols_of (producers code recs)]
        else [].
Proof.
  intros Hroot Hrecs. eexists. split.
  { unfold Duplication.main, index. rewrite Hroot. cbn [mbind res_bind].
    rewrite scanFile_records, Hrecs. cbn [mbind res_bind].
    by rewrite report_lines. }
  intros code. rewrite filter_report.
  - rewrite add_records_lookup, lookup_empty.
    by destruct (producers code recs) as [|p ps].
  - intros k ps. rewrite add_records_lookup, lookup_empty.
    destruct (producers k recs) as [|p ps'] eqn:Hps; [done|]. intros _.
    assert (p ∈ producers k recs) as Hp by (rewrite Hps; left).
    unfold producers in Hp.
    apply list_elem_of_fmap in Hp as [[k' p'] [_ [Hk Hin]%list_elem_of_filter]].
    simpl in Hk. subst k'.
    by apply (proj1 (Forall_forall _ _) (records_no_space _ _ _ _ _ Hrecs) (k, p')).
Qed.

Lemma duplicates_reported_witness :
  ∃ out,
    Duplication.main tables_ab ["duplication.py"; "a.tbl"] 2 = (out, Ret ()) ∧
    ∀ code,
      filter (λ l, key_of l = Some code) out =
        let recs := [("61", Producer "b.tbl" "\x61"); ("61", Producer "a.tbl" "\x61")] in
        if 1 <? length (producers code recs)
        then [code +:+ Duplication.tab +:+ symbols_of (producers code recs)]
        else [].
Proof.
  apply (duplicates_reported tables_ab ["duplication.py"; "a.tbl"] 2 "a.tbl"
           [("61", Producer "b.tbl" "\x61"); ("61", Producer "a.tbl" "\x61")]);
    reflexivity.
Defined.

(** Two records produce the code [56] and its line has one producer: the
    token [\xzz] of the first record cannot be decoded. *)
Lemma duplicates_reported_counterexample :
  let fs := files [("a.tbl", text ["sign \xzz 56"; "sign . 56"])] in
  let argv := ["duplication.py"; "a.tbl"] in
  Closure.records fs argv 1 "a.tbl" =
    Ret [("56", Producer "a.tbl" "\xzz"); ("56", Producer "a.tbl" ".")] ∧
  Duplication.main fs argv 1 =
    (["error"; "56" +:+ Duplication.tab +:+ ". a.tbl"], Ret ()).
Proof. split; vm_compute; reflexivity. Qed.

(** ** Comment lines *)

(** Lines of a file, some of them taken out, are the lines of the file
    that they make. *)
Lemma readlines_sublist s ks :
  ks `sublist_of` Py.readlines s → Py.readlines (join ks) = ks.
Proof.
  revert ks. induction s as [|a s IH]; intros ks Hks.
  { apply sublist_nil_r in Hks. by subst ks. }
  cbn [Py.readlines] in Hks. destruct (Ascii.eqb a "010") eqn:Ha.
  - apply sublist_cons_r in Hks as [Hks|(ks' & -> & Hks)]; [by apply IH|].
    change (join (String a "" :: ks')) with (String a (join ks')).
    cbn [Py.readlines]. by rewrite Ha, IH.
  - destruct (Py.readlines s) as [|l ls] eqn:Hs.
    + apply sublist_cons_r in Hks as [Hks|(ks' & -> & Hks)];
        apply sublist_nil_r in Hks; subst; [done|].
      change (join [String a ""]) with (String a "").
      cbn [Py.readlines]. by rewrite Ha.
    + apply sublist_cons_r in Hks as [Hks|(ks' & -> & Hks)].
      * apply IH. by apply sublist_cons.
      * change (join (String a l :: ks')) with (String a (join (l :: ks'))).
        cbn [Py.readlines]. rewrite Ha, IH; [done|]. by apply sublist_skip.
Qed.

Lemma readlines_remove_comments content :
  Py.readlines (remove_comments content) =
    filter (λ ln, is_comment_line ln = false) (Py.readlines content).
Proof. apply (readlines_sublist content), sublist_filter. Qed.

Lemma scanFile_body_ext argv rec1 rec2 file ln result :
  (∀ f r, rec1 f r = rec2 f r) →
  Duplication.scanFile_body argv rec1 file ln result =
  Duplication.scanFile_body argv rec2 file ln result.
Proof.
  intros Hrec. unfold Duplication.scanFile_body.
  repeat (first [ reflexivity | apply Hrec
                | match goal with
                  | |- context [if ?b then _ else _] => destruct b
                  | |- context [index ?l ?i] => destruct (index l i)
                  end
                | progress cbn [mbind res_bind] ]).
Qed.

Lemma for_each_ext {A S : Type} (body1 body2 : A → S → res S) xs st :
  (∀ x s, body1 x s = body2 x s) →
  for_each body1 xs st = for_each body2 xs st.
Proof.
  intros Hbody. revert st. induction xs as [|x xs IH]; intros st; [done|].
  simpl. rewrite Hbody. destruct (body2 x st); simpl; [apply IH|done..].
Qed.

(** The loop of [scanFile] passes over the comment lines. *)
Lemma scanFile_lines_without_comments argv rec file lines result :
  for_each (Duplication.scanFile_body argv rec file)
           (filter (λ ln, is_comment_line ln = false) lines) result =
  for_each (Duplication.scanFile_body argv rec file) lines result.
Proof.
  revert result. induction lines as [|ln lines IH]; intros result; [done|].
  rewrite filter_cons. destruct (is_comment_line ln) eqn:Hln.
  - rewrite decide_False by done. cbn [for_each].
    rewrite scanFile_body_skip; [by rewrite IH|].
    unfold is_comment_line in Hln. by destruct (Py.split_ws ln).
  - rewrite decide_True by done. cbn [for_each].
    destruct (Duplication.scanFile_body argv rec file ln result); simpl;
      [apply IH|done..].
Qed.

Lemma open_without_comments which fs file :
  open (without_comments which fs) file =
    content ← open fs file;
    Ret (if which file then remove_comments content else content).
Proof.
  unfold open, without_comments. by destruct (which file), (fs file).
Qed.

Lemma scanFile_without_comments which fs argv fuel file result :
  Duplication.scanFile (without_comments which fs) argv fuel file result =
  Duplication.scanFile fs argv fuel file result.
Proof.
  revert file result. induction fuel as [|fuel IH]; intros file result; [done|].
  cbn [Duplication.scanFile]. rewrite open_without_comments.
  destruct (open fs file) as [content| |]; cbn [mbind res_bind]; [|done..].
  destruct (which file).
  - rewrite readlines_remove_comments, scanFile_lines_without_comments.
    apply for_each_ext. intros ln r. by apply scanFile_body_ext.
  - apply for_each_ext. intros ln r. by apply scanFile_body_ext.
Qed.

(** C4: the duplicate scanner prints the same, and ends the same, on a
    table and on the table without its comment lines, whether the comment
    lines are taken out of the root table alone or out of any of the
    tables. *)
Theorem comments_do_not_matter (which : string → bool) fs argv fuel :
  Duplication.main (without_comments which fs) argv fuel =
  Duplication.main fs argv fuel.
Proof.
  unfold Duplication.main. destruct (index argv 1) as [root| |]; [|done..].
  cbn [mbind res_bind]. by rewrite scanFile_without_comments.
Qed.

(** ** Missing files *)

Lemma scanFile_opens_missing fs argv file :
  scanner_opens_missing fs argv file →
  ∃ fuel0, ∀ fuel result, fuel0 ≤ fuel →
    Duplication.scanFile fs argv fuel file result = Raise IOError.
Proof.
  induction 1 as [file Hfile
                 |file content pre ln post l0 l1 fields fuel1 recs
                    Hfile Hlines Hpre Hsplit Hcomment Hinclude Hargv _ [fuel2 IH]].
  - exists 1. intros [|fuel] result Hle; [lia|].
    cbn [Duplication.scanFile]. unfold open. by rewrite Hfile.
  - exists (S (fuel1 `max` fuel2)). intros [|fuel] result Hle; [lia|].
    cbn [Duplication.scanFile]. unfold open. rewrite Hfile.
    cbn [mbind res_bind]. rewrite Hlines, for_each_app.
    rewrite (scanFile_lines_records _ _ (Closure.records fs argv fuel))
      by (intros; apply scanFile_records).
    assert (Closure.records_lines argv (Closure.records fs argv fuel) file pre
            = Ret recs) as ->.
    { rewrite <-Hpre. apply records_lines_refines; [|by rewrite Hpre].
      intros f. apply records_refines. lia. }
    cbn [mbind res_bind for_each].
    rewrite (scanFile_body_fields _ _ _ _ _ _ _ Hsplit Hcomment), Hinclude.
    apply Nat.leb_le in Hargv as ->.
    cbn [index lookup list_lookup mbind res_bind].
    rewrite IH by lia. done.
Qed.

Lemma scan_opens_missing fs argv file :
  finder_opens_missing fs argv file →
  ∃ fuel0, ∀ fuel, fuel0 ≤ fuel →
    FindCombination.scan fs argv fuel file = Raise IOError.
Proof.
  induction 1 as [file Hfile
                 |file content pre ln post l0 l1 fields fuel1
                    Hfile Hlines Hpre Hsplit Hcomment Hinclude _ [fuel2 IH]].
  - exists 1. intros [|fuel] Hle; [lia|].
    cbn [FindCombination.scan]. unfold open. by rewrite Hfile.
  - exists (S (fuel1 `max` fuel2)). intros [|fuel] Hle; [lia|].
    cbn [FindCombination.scan]. unfold open. rewrite Hfile.
    cbn [mbind res_bind]. rewrite Hlines, scan_loop_app.
    assert (FindCombination.scan_loop argv (FindCombination.scan fs argv fuel)
              file pre 0 = Ret Next) as ->.
    { rewrite <-Hpre. apply scan_loop_refines; [|by rewrite Hpre].
      intros f. apply scan_refines. lia. }
    cbn [mbind res_bind FindCombination.scan_loop].
    rewrite (scan_body_fields _ _ _ _ _ _ _ Hsplit Hcomment), Hinclude.
    cbn [index lookup list_lookup mbind res_bind].
    rewrite IH by lia. done.
Qed.

(** C7, as the scripts have it: when the scan from the root file comes to
    open a missing file, at whatever depth, the run ends, given the fuel to
    get there, with an uncaught [IOError] and nothing printed.  The file
    has to be one that the scan tries to open: the scanner follows an
    [include] line only when there is no second argument, the finder only
    the [include] lines that come before a hit in the file. *)
Theorem missing_file_is_fatal fs argv :
  (∀ root, argv !! 1 = Some root → scanner_opens_missing fs argv root →
     ∃ fuel0, ∀ fuel, fuel0 ≤ fuel →
       Duplication.main fs argv fuel = ([], Raise IOError)) ∧
  (∀ root, argv !! 2 = Some root → finder_opens_missing fs argv root →
     ∃ fuel0, ∀ fuel, fuel0 ≤ fuel →
       FindCombination.main fs argv fuel = ([], Raise IOError)).
Proof.
  split; intros root Hroot Hmissing.
  - destruct (scanFile_opens_missing _ _ _ Hmissing) as [fuel0 Hscan].
    exists fuel0. intros fuel Hle. unfold Duplication.main, index.
    rewrite Hroot. cbn [mbind res_bind]. by rewrite Hscan.
  - destruct (scan_opens_missing _ _ _ Hmissing) as [fuel0 Hscan].
    exists fuel0. intros fuel Hle. unfold FindCombination.main, index.
    rewrite Hroot. cbn [mbind res_bind]. by rewrite Hscan.
Qed.

Lemma missing_file_is_fatal_witness :
  (∃ fuel0, ∀ fuel, fuel0 ≤ fuel →
     Duplication.main tables_missing ["duplication.py"; "a.tbl"] fuel =
       ([], Raise IOError)) ∧
  (∃ fuel0, ∀ fuel, fuel0 ≤ fuel →
     FindCombination.main tables_missing ["find_combination.py"; "9"; "a.tbl"] fuel =
       ([], Raise IOError)).
Proof.
  split.
  - apply (proj1 (missing_file_is_fatal tables_missing ["duplication.py"; "a.tbl"])
             "a.tbl"); [reflexivity|].
    apply (scanner_include _ _ "a.tbl" (text ["sign a 1"; "include b.tbl"])
             ["sign a 1" +:+ nl] ("include b.tbl" +:+ nl) [] "include" "b.tbl" [] 0
             [("1", Producer "a.tbl" "a")]); try reflexivity.
    apply (scanner_include _ _ "b.tbl" (text ["include c.tbl"])
             [] ("include c.tbl" +:+ nl) [] "include" "c.tbl" [] 0 []);
      try reflexivity.
    apply scanner_missing. reflexivity.
  - apply (proj2 (missing_file_is_fatal tables_missing
                    ["find_combination.py"; "9"; "a.tbl"]) "a.tbl"); [reflexivity|].
    apply (finder_include _ _ "a.tbl" (text ["sign a 1"; "include b.tbl"])
             ["sign a 1" +:+ nl] ("include b.tbl" +:+ nl) [] "include" "b.tbl" [] 0);
      try reflexivity.
    apply (finder_include _ _ "b.tbl" (text ["include c.tbl"])
             [] ("include c.tbl" +:+ nl) [] "include" "c.tbl" [] 0);
      try reflexivity.
    apply finder_missing. reflexivity.
Defined.

(** The root table names [missing.tbl] on an [include] line and the file
    is not there.  With a second argument the scanner does not follow the
    line: the run ends normally and prints the report of the root table.
    The finder does not reach the line when the code is found before it. *)
Lemma missing_file_counterexample :
  tables_unfollowed "missing.tbl" = None ∧
  Py.split_ws "include missing.tbl" = ["include"; "missing.tbl"] ∧
  Duplication.main tables_unfollowed ["duplication.py"; "a.tbl"; "-n"] 3 =
    (["1" +:+ Duplication.tab +:+ "a a.tbl b a.tbl"], Ret ()) ∧
  FindCombination.main tables_unfollowed ["find_combination.py"; "1"; "a.tbl"] 3 =
    (["a.tbl 1"], Ret ()).
Proof. repeat split; vm_compute; reflexivity. Qed.

(** ** Searching a string *)

Lemma length_app_s s1 s2 :
  String.length (s1 +:+ s2) = String.length s1 + String.length s2.
Proof. induction s1 as [|a s1 IH]; [done|]. rewrite app_String. simpl. by rewrite IH. Qed.

Lemma prefix_empty s : String.prefix "" s = true.
Proof. by destruct s. Qed.

Lemma prefix_ne a s1 b s2 : a ≠ b → String.prefix (String a s1) (String b s2) = false.
Proof. intros Hne. by rewrite prefix_String, bool_decide_eq_false_2. Qed.

Lemma prefix_eq a s1 s2 :
  String.prefix (String a s1) (String a s2) = String.prefix s1 s2.
Proof. by rewrite prefix_String, bool_decide_eq_true_2. Qed.

Lemma prefix_app p s : String.prefix p (p +:+ s) = true.
Proof.
  induction p as [|a p IH]; [apply prefix_empty|].
  by rewrite app_String, prefix_eq.
Qed.

Lemma index_0_String pat b s :
  String.index 0 pat (String b s) =
    if String.prefix pat (String b s) then Some 0
    else S <$> String.index 0 pat s.
Proof.
  cbn [String.index]. destruct (String.prefix pat (String b s)); [done|].
  by destruct (String.index 0 pat s).
Qed.

Lemma index_app_offset p pat s :
  String.index (String.length p) pat (p +:+ s) =
    (λ i, String.length p + i) <$> String.index 0 pat s.
Proof.
  induction p as [|a p IH].
  { change ("" +:+ s) with s. simpl. by destruct (String.index 0 pat s). }
  rewrite app_String. cbn [String.length String.index]. rewrite IH.
  by destruct (String.index 0 pat s).
Qed.

(** The search passes the characters that are not the first one of the
    pattern. *)
Lemma index_skip c pat p s :
  has_char c p = false →
  String.index 0 (String c pat) (p +:+ s) =
    (λ i, String.length p + i) <$> String.index 0 (String c pat) s.
Proof.
  induction p as [|a p IH].
  { intros _. change ("" +:+ s) with s. by destruct (String.index 0 _ s). }
  cbn [has_char]. intros [Ha Hp]%orb_false_elim.
  rewrite app_String, index_0_String, prefix_ne, IH by
    (done || intros <-; by rewrite Ascii.eqb_refl in Ha).
  cbn [String.length]. by destruct (String.index 0 (String c pat) s).
Qed.

Lemma index_here pat s :
  pat ≠ "" → String.index 0 pat (pat +:+ s) = Some 0.
Proof.
  destruct pat as [|c pat]; [done|]. intros _.
  by rewrite app_String, index_0_String, <-app_String, prefix_app.
Qed.

Lemma all_space_has_char c s :
  Py.isspace c = false → all_space s = true → has_char c s = false.
Proof.
  intros Hc. induction s as [|a s IH]; [done|]. cbn [all_space has_char].
  intros [Ha Hs]%andb_true_iff. rewrite IH by done.
  destruct (Ascii.eqb_spec a c) as [->|]; [congruence|done].
Qed.

Lemma substring_app_offset p n s :
  String.substring (String.length p) n (p +:+ s) = String.substring 0 n s.
Proof. induction p as [|a p IH]; [done|]. by rewrite app_String. Qed.

Lemma substring_prefix s1 s2 :
  String.substring 0 (String.length s1) (s1 +:+ s2) = s1.
Proof.
  induction s1 as [|a s1 IH]; [by destruct s2|].
  rewrite app_String. simpl. by rewrite IH.
Qed.

Lemma index_none c pat s :
  has_char c s = false → String.index 0 (String c pat) s = None.
Proof.
  induction s as [|a s IH]; [done|]. cbn [has_char].
  intros [Ha Hs]%orb_false_elim.
  rewrite index_0_String, prefix_ne, IH by
    (done || intros <-; by rewrite Ascii.eqb_refl in Ha).
  done.
Qed.

(** ** [getName] and the quoted name of a line *)

Lemma prefix_strip_prefix p s :
  if String.prefix p s
  then ∃ rest, strip_prefix p s = Some rest ∧ s = p +:+ rest
  else strip_prefix p s = None.
Proof.
  revert s. induction p as [|a p IH]; intros s.
  { rewrite prefix_empty. exists s. by destruct s. }
  destruct s as [|b s]; [done|]. rewrite prefix_String. cbn [strip_prefix].
  destruct (Ascii.eqb_spec a b) as [->|Hne].
  - rewrite bool_decide_eq_true_2 by done. cbn [andb]. specialize (IH s).
    destruct (String.prefix p s); [|done].
    destruct IH as (rest & -> & ->). by exists rest.
  - by rewrite bool_decide_eq_false_2.
Qed.

(** The first search of [getName] finds what [after_first] passes. *)
Lemma index_after_first pat s :
  pat ≠ "" →
  match String.index 0 pat s with
  | Some k => ∃ pre rest, s = pre +:+ pat +:+ rest ∧ String.length pre = k ∧
                          after_first pat s = Some rest
  | None => after_first pat s = None
  end.
Proof.
  intros Hpat. induction s as [|b s IH].
  { destruct pat; [done|]. done. }
  rewrite index_0_String. cbn [after_first].
  pose proof (prefix_strip_prefix pat (String b s)) as Hprefix.
  destruct (String.prefix pat (String b s)).
  - destruct Hprefix as (rest & -> & Hs). by exists "", rest.
  - rewrite Hprefix. destruct (String.index 0 pat s) as [k|]; [|done].
    destruct IH as (pre & rest & -> & <- & ->).
    by exists (String b pre), rest.
Qed.

(** The search of a character finds what [until_char] keeps. *)
Lemma index_until_char c s :
  match String.index 0 (String c "") s with
  | Some j => ∃ name tail, s = name +:+ String c tail ∧ String.length name = j ∧
                           until_char c s = Some name
  | None => until_char c s = None
  end.
Proof.
  induction s as [|b s IH]; [done|].
  rewrite index_0_String, prefix_String, prefix_empty, andb_true_r.
  cbn [until_char]. destruct (Ascii.eqb_spec b c) as [->|Hne].
  - rewrite bool_decide_eq_true_2 by done. by exists "", s.
  - rewrite bool_decide_eq_false_2 by done.
    destruct (String.index 0 (String c "") s) as [j|]; [|by rewrite IH].
    destruct IH as (name & tail & -> & <- & ->).
    by exists (String b name), tail.
Qed.

(** [getName] returns the quoted name of the line, and raises [ValueError]
    on a line without one. *)
Lemma getName_quoted_name s :
  Compare.getName s =
    match quoted_name s with
    | Some name => Ret name
    | None => Raise ValueError
    end.
Proof.
  unfold Compare.getName, quoted_name, Py.index_from.
  change ("name=" +:+ Compare.dquote)
    with (String "n" (String "a" (String "m" (String "e" (String "="
            (String "034" "")))))).
  change Compare.dquote with (String "034" "").
  set (pat := String "n" _).
  pose proof (index_after_first pat s ltac:(done)) as Hfirst.
  destruct (String.index 0 pat s) as [k|]; [|by rewrite Hfirst].
  destruct Hfirst as (pre & rest & -> & <- & ->). cbn [mbind res_bind option_bind].
  rewrite index_app_offset.
  change (pat +:+ rest) with ("name=" +:+ String "034" "" +:+ rest).
  rewrite index_skip, index_here by done.
  cbn [fmap option_fmap option_map mbind res_bind].
  assert (String.length pre + (String.length "name=" + 0) + 1
          = String.length (pre +:+ pat)) as ->
    by (rewrite length_app_s; simpl; lia).
  assert (pre +:+ "name=" +:+ String "034" "" +:+ rest = (pre +:+ pat) +:+ rest)
    as -> by (by rewrite app_assoc_s).
  rewrite index_app_offset.
  pose proof (index_until_char "034" rest) as Hquote.
  destruct (String.index 0 (String "034" "") rest) as [j|];
    [|by rewrite Hquote].
  destruct Hquote as (name & tail & -> & <- & ->).
  cbn [fmap option_fmap option_map mbind res_bind]. unfold Py.slice. f_equal.
  replace (_ + String.length name - _) with (String.length name) by lia.
  by rewrite substring_app_offset, substring_prefix.
Qed.

(** ** The string-diff tool *)

Lemma declares_at_bound lines n name :
  declares_at lines n name → 1 ≤ n ≤ length lines.
Proof.
  intros (i & line & -> & Hline & _). apply lookup_lt_Some in Hline. lia.
Qed.

Lemma declares_at_snoc lines ln n name :
  declares_at (lines ++ [ln]) n name ↔
    declares_at lines n name ∨
    (n = S (length lines) ∧ is_declaration ln = true ∧
     quoted_name ln = Some name).
Proof.
  split.
  - intros (i & line & -> & Hline & Hdecl & Hname).
    apply lookup_app_Some in Hline as [Hline|[Hle Hline]].
    + left. by exists i, line.
    + right. apply list_lookup_singleton_Some in Hline as [Hi <-].
      split; [|done]. f_equal. lia.
  - intros [(i & line & -> & Hline & Hdecl & Hname)|(-> & Hdecl & Hname)].
    + exists i, line. split; [done|]. split; [|done].
      by apply lookup_app_l_Some.
    + exists (length lines), ln. split; [done|]. split; [|done].
      rewrite lookup_app_r by done. by rewrite Nat.sub_diag.
Qed.

(** A line declares one name. *)
Lemma declares_at_name lines n name1 name2 :
  declares_at lines n name1 → declares_at lines n name2 → name1 = name2.
Proof.
  intros (i & line & -> & Hline & _ & Hname) (i' & line' & [= <-] & Hline' & _ & Hname').
  congruence.
Qed.

Lemma last_declares_at_snoc_hit lines ln n name :
  is_declaration ln = true → quoted_name ln = Some name →
  last_declares_at (lines ++ [ln]) n name ↔ n = S (length lines).
Proof.
  intros Hdecl Hname. unfold last_declares_at. split.
  - intros [Hn Hmax].
    assert (S (length lines) ≤ n) by (apply Hmax, declares_at_snoc; by right).
    apply declares_at_snoc in Hn as [Hn%declares_at_bound|[-> _]]; [lia|done].
  - intros ->. split; [apply declares_at_snoc; by right|].
    intros m [Hm%declares_at_bound|[-> _]]%declares_at_snoc; lia.
Qed.

Lemma last_declares_at_snoc_miss lines ln n name :
  is_declaration ln = false ∨ quoted_name ln ≠ Some name →
  last_declares_at (lines ++ [ln]) n name ↔ last_declares_at lines n name.
Proof.
  intros Hmiss.
  assert (∀ m, declares_at (lines ++ [ln]) m name ↔ declares_at lines m name)
    as Hsame.
  { intros m. rewrite declares_at_snoc. split; [|by left].
    intros [?|(_ & Hdecl & Hname)]; [done|].
    destruct Hmiss; congruence. }
  unfold last_declares_at. rewrite Hsame. by setoid_rewrite Hsame.
Qed.

(** The loop filling a dictionary: after the lines [pre], with the
    dictionary of [pre], the lines [lines] lead to the dictionary of
    [pre ++ lines]. *)
Lemma load_loop lines pre (d : gmap string nat) :
  (∀ line, line ∈ lines → is_declaration line = true →
           is_Some (quoted_name line)) →
  (∀ name n, d !! name = Some n ↔ last_declares_at pre n name) →
  ∃ d', for_each Compare.load_body lines (length pre, d) =
          Ret (length (pre ++ lines), d') ∧
        ∀ name n, d' !! name = Some n ↔ last_declares_at (pre ++ lines) n name.
Proof.
  revert pre d. induction lines as [|ln lines IH]; intros pre d Hwf Hd.
  { exists d. rewrite app_nil_r. by split. }
  cbn [for_each]. unfold Compare.load_body at 2. cbn [fst snd].
  fold (is_declaration ln).
  replace (pre ++ ln :: lines) with ((pre ++ [ln]) ++ lines)
    by (by rewrite <-app_assoc).
  replace (length pre + 1) with (length (pre ++ [ln]))
    by (rewrite length_app; simpl; lia).
  destruct (is_declaration ln) eqn:Hdecl.
  - destruct (Hwf ln) as [name Hname]; [by left|done|].
    rewrite getName_quoted_name, Hname. cbn [mbind res_bind]. apply IH.
    { intros line Hline. apply Hwf. by right. }
    intros name' n. destruct (decide (name' = name)) as [->|Hne].
    + rewrite lookup_insert_eq, last_declares_at_snoc_hit by done.
      rewrite length_app. simpl. split; [intros [= <-]|intros ->; f_equal]; lia.
    + rewrite lookup_insert_ne, last_declares_at_snoc_miss by (done || right; congruence).
      apply Hd.
  - cbn [mbind res_bind]. apply IH.
    { intros line Hline. apply Hwf. by right. }
    intros name' n. rewrite last_declares_at_snoc_miss by (by left). apply Hd.
Qed.

Lemma load_well_quoted content :
  well_quoted content →
  ∃ d, Compare.load content = Ret d ∧
       ∀ name n, d !! name = Some n ↔
                 last_declares_at (Py.readlines content) n name.
Proof.
  intros Hwf. unfold Compare.load.
  destruct (load_loop (Py.readlines content) [] ∅) as (d & Hloop & Hd).
  { intros line Hline Hdecl.
    by apply (proj1 (Forall_forall _ _) Hwf line Hline Hdecl). }
  { intros name n. rewrite lookup_empty. split; [done|].
    intros [Hn%declares_at_bound _]. simpl in Hn. lia. }
  exists d. split; [|done]. cbn [length] in Hloop. by rewrite Hloop.
Qed.

Lemma collect_go (d1 d2 : gmap string nat) keys (results : gmap nat string) n name :
  (∀ k1 k2 m, d1 !! k1 = Some m → d1 !! k2 = Some m → k1 = k2) →
  (∀ k, k ∈ keys → is_Some (d1 !! k)) →
  (∀ m k, results !! m = Some k → d1 !! k = Some m ∧ d2 !! k = None) →
  foldl (λ results key,
           if bool_decide (is_Some (d2 !! key)) then results
           else <[d1 !!! key := key]> results) results keys !! n = Some name ↔
    results !! n = Some name ∨
    (name ∈ keys ∧ d1 !! name = Some n ∧ d2 !! name = None).
Proof.
  intros Hinj. revert results. induction keys as [|key keys IH];
    intros results Hkeys Hres.
  { simpl. split; [by left|]. by intros [?|[?%elem_of_nil _]]. }
  cbn [foldl]. destruct (Hkeys key) as [m Hm]; [by left|].
  assert (d1 !!! key = m) as -> by (by rewrite lookup_total_alt, Hm).
  case_bool_decide as Hd2.
  - rewrite IH by (done || intros k Hk; apply Hkeys; by right).
    split; intros [?|(Hin & Hn & Hnone)]; [by left| |by left|].
    + right. split; [by right|done].
    + apply elem_of_cons in Hin as [->|Hin]; [|by right].
      rewrite Hnone in Hd2. by destruct Hd2.
  - apply eq_None_not_Some in Hd2. rewrite IH; cycle 1.
    { intros k Hk. apply Hkeys. by right. }
    { intros m' k. rewrite lookup_insert. case_decide as Hmm.
      - intros [= <-]. by subst m'.
      - apply Hres. }
    rewrite lookup_insert. case_decide as Hmn.
    + subst m. split.
      * intros [[= <-]|(Hin & Hn & Hnone)]; right; (split; [|done]);
          [by left|by right].
      * intros [Hold|(Hin & Hn & Hnone)].
        -- left. f_equal. apply Hres in Hold as [Hold _]. by apply (Hinj _ _ n).
        -- left. f_equal. by apply (Hinj _ _ n).
    + split; intros [?|(Hin & Hn & Hnone)]; [by left| |by left|].
      * right. split; [by right|done].
      * apply elem_of_cons in Hin as [->|Hin]; [congruence|by right].
Qed.

Lemma collect_lookup (d1 d2 : gmap string nat) n name :
  (∀ k1 k2 m, d1 !! k1 = Some m → d1 !! k2 = Some m → k1 = k2) →
  Compare.collect d1 d2 !! n = Some name ↔
    d1 !! name = Some n ∧ d2 !! name = None.
Proof.
  intros Hinj. unfold Compare.collect. rewrite collect_go; [|done|..].
  - rewrite lookup_empty. split; [by intros [?|(_ & ? & ?)]|].
    intros [Hn Hnone]. right. split; [|done].
    apply list_elem_of_fmap. exists (name, n). split; [done|].
    by apply elem_of_map_to_list.
  - intros k [[k' m] [-> Hin]]%list_elem_of_fmap.
    apply elem_of_map_to_list in Hin. by exists m.
  - intros m k. by rewrite lookup_empty.
Qed.

Lemma StronglySorted_le_lt (l : list nat) :
  StronglySorted le l → NoDup l → StronglySorted lt l.
Proof.
  induction 1 as [|x l Hl IH Hx]; [constructor|].
  intros [Hnotin Hnodup]%NoDup_cons. constructor; [by apply IH|].
  apply Forall_forall. intros y Hy.
  assert (x ≤ y) by (by apply (proj1 (Forall_forall _ _) Hx)).
  assert (x ≠ y) by (by intros ->). lia.
Qed.

(** The printing loop of a section: the keys of [results] by ascending
    order, each with its name. *)
Lemma print_sorted_entries (results : gmap nat string) :
  ∃ sec : list (nat * string),
    Compare.print_sorted results = entry <$> sec ∧
    StronglySorted lt sec.*1 ∧
    ∀ n name, (n, name) ∈ sec ↔ results !! n = Some name.
Proof.
  set (keys := merge_sort le (map_to_list results).*1).
  assert (keys ≡ₚ (map_to_list results).*1) as Hperm
    by apply merge_sort_Permutation.
  exists ((λ key, (key, results !!! key)) <$> keys). split; [|split].
  - unfold Compare.print_sorted. fold keys. by rewrite <-list_fmap_compose.
  - rewrite <-list_fmap_compose.
    replace (fst ∘ (λ key, (key, results !!! key)) <$> keys) with keys
      by (clear; induction keys; simpl; by f_equal).
    apply StronglySorted_le_lt.
    + apply StronglySorted_merge_sort; apply _.
    + rewrite Hperm. apply NoDup_fst_map_to_list.
  - intros n name. rewrite list_elem_of_fmap. split.
    + intros (key & [= -> ->] & Hin). rewrite Hperm in Hin.
      apply list_elem_of_fmap in Hin as [[k v] [-> Hin]].
      apply elem_of_map_to_list in Hin. simpl.
      by rewrite lookup_total_alt, Hin.
    + intros Hn. exists n. split.
      * by rewrite lookup_total_alt, Hn.
      * rewrite Hperm. apply list_elem_of_fmap. exists (n, name).
        split; [done|]. by apply elem_of_map_to_list.
Qed.

Lemma last_declares_at_exists lines m name :
  declares_at lines m name → ∃ n, last_declares_at lines n name.
Proof.
  revert m. induction lines as [|ln lines IH] using rev_ind; intros m Hm.
  { apply declares_at_bound in Hm. simpl in Hm. lia. }
  destruct (decide (is_declaration ln = true ∧ quoted_name ln = Some name))
    as [[Hdecl Hname]|Hmiss].
  - exists (S (length lines)). by apply last_declares_at_snoc_hit.
  - apply declares_at_snoc in Hm as [Hm|(_ & ? & ?)]; [|by destruct Hmiss].
    destruct (IH m Hm) as [n Hn]. exists n.
    apply last_declares_at_snoc_miss; [|done].
    destruct (is_declaration ln); [right|by left]. intros ?. by destruct Hmiss.
Qed.

(** A section of the output, from the dictionaries of the two files. *)
Lemma section_only_in c1 c2 (d1 d2 : gmap string nat) :
  (∀ name n, d1 !! name = Some n ↔ last_declares_at (Py.readlines c1) n name) →
  (∀ name n, d2 !! name = Some n ↔ last_declares_at (Py.readlines c2) n name) →
  ∃ sec, Compare.section d1 d2 = entry <$> sec ∧ only_in c1 c2 sec.
Proof.
  intros Hd1 Hd2. unfold Compare.section.
  destruct (print_sorted_entries (Compare.collect d1 d2)) as (sec & Hprint & Hsorted & Hsec).
  exists sec. split; [done|]. split; [done|]. intros n name.
  rewrite Hsec, collect_lookup.
  - rewrite Hd1. apply and_iff_compat_l. split.
    + intros Hnone [m Hm]. destruct (last_declares_at_exists _ _ _ Hm) as [k Hk].
      apply Hd2 in Hk. congruence.
    + intros Hnot. destruct (d2 !! name) as [k|] eqn:Hk; [|done].
      destruct Hnot. exists k. by apply Hd2.
  - intros k1 k2 m H1%Hd1 H2%Hd1.
    eapply declares_at_name; [apply H1|apply H2].
Qed.

(** C9: on two files that are there and whose declaration lines all have
    a quoted name, the tool prints the heading of file 1, then the names
    that file 1 declares and file 2 does not, each with its line number in
    file 1 and by ascending line number, then the heading of file 2 and the
    same for the names of file 2 that file 1 does not declare.  When the
    two files declare the same names, both sections are empty.  The name
    that a line declares is its [quoted_name], read off the line itself:
    that [getName] returns it is part of the proof
    ([getName_quoted_name]). *)
Theorem string_diff_sections fs argv a1 a2 c1 c2 :
  argv !! 1 = Some a1 → argv !! 2 = Some a2 →
  fs a1 = Some c1 → fs a2 = Some c2 →
  well_quoted c1 → well_quoted c2 →
  ∃ sec1 sec2,
    Compare.main fs argv =
      (Compare.header a1 :: (entry <$> sec1) ++
       Compare.header a2 :: (entry <$> sec2), Ret ()) ∧
    only_in c1 c2 sec1 ∧ only_in c2 c1 sec2 ∧
    ((∀ name, declared c1 name ↔ declared c2 name) → sec1 = [] ∧ sec2 = []).
Proof.
  intros Ha1 Ha2 Hc1 Hc2 Hwf1 Hwf2.
  destruct (load_well_quoted c1 Hwf1) as (d1 & Hload1 & Hd1).
  destruct (load_well_quoted c2 Hwf2) as (d2 & Hload2 & Hd2).
  destruct (section_only_in c1 c2 d1 d2 Hd1 Hd2) as (sec1 & Hsec1 & Honly1).
  destruct (section_only_in c2 c1 d2 d1 Hd2 Hd1) as (sec2 & Hsec2 & Honly2).
  exists sec1, sec2. split; [|split; [done|split; [done|]]].
  - unfold Compare.main, index, open. rewrite Ha1, Ha2. cbn [mbind res_bind].
    rewrite Hc1. cbn [mbind res_bind]. rewrite Hc2. cbn [mbind res_bind].
    rewrite Hload1. cbn [mbind res_bind]. rewrite Hload2. cbn [mbind res_bind].
    by rewrite Hsec1, Hsec2.
  - intros Hsame. split.
    + destruct sec1 as [|[n name] sec1]; [done|]. exfalso.
      destruct (proj1 (proj2 Honly1 n name)) as [[Hn _] Hnot]; [left|].
      apply Hnot, Hsame. by exists n.
    + destruct sec2 as [|[n name] sec2]; [done|]. exfalso.
      destruct (proj1 (proj2 Honly2 n name)) as [[Hn _] Hnot]; [left|].
      apply Hnot, Hsame. by exists n.
Qed.

Lemma string_diff_sections_witness :
  ∃ sec1 sec2,
    Compare.main strings_files
      ["compare.py"; "values/strings.xml"; "values-de/strings.xml"] =
      (Compare.header "values/strings.xml" :: (entry <$> sec1) ++
       Compare.header "values-de/strings.xml" :: (entry <$> sec2), Ret ()) ∧
    only_in strings_1 strings_2 sec1 ∧ only_in strings_2 strings_1 sec2 ∧
    ((∀ name, declared strings_1 name ↔ declared strings_2 name) →
     sec1 = [] ∧ sec2 = []).
Proof.
  apply (string_diff_sections strings_files
           ["compare.py"; "values/strings.xml"; "values-de/strings.xml"]
           "values/strings.xml" "values-de/strings.xml" strings_1 strings_2);
    try reflexivity; apply (bool_decide_unpack _); vm_compute; exact I.
Defined.

(** * Further properties of the scripts *)

(** ** The dictionary of the duplicate scanner *)

(** X1: a scan that ends adds to the dictionary it is given and takes
    nothing from it: under every code, the producers that were there stay,
    in their order, and the producers of the records of the scanned
    closure come after them; a code that was not there is there afterwards
    exactly when a record produces it. *)
Theorem scan_extends_dictionary fs argv fuel file
    (result result' : gmap string (list producer)) :
  Duplication.scanFile fs argv fuel file result = Ret result' →
  ∃ recs,
    Closure.records fs argv fuel file = Ret recs ∧
    ∀ code,
      result' !! code =
        match result !! code with
        | Some entries => Some (entries ++ producers code recs)
        | None =>
            match producers code recs with
            | [] => None
            | ps => Some ps
            end
        end.
Proof.
  rewrite scanFile_records.
  destruct (Closure.records fs argv fuel file) as [recs| |]; [|done..].
  intros [= <-]. exists recs. split; [done|]. intros code.
  apply add_records_lookup.
Qed.

Lemma scan_extends_dictionary_witness :
  ∃ recs,
    Closure.records tables_ab ["duplication.py"; "a.tbl"] 2 "a.tbl" = Ret recs ∧
    ∀ code,
      ({[ "61" := [Producer "b.tbl" "\x61"; Producer "a.tbl" "\x61"];
          "12" := [Producer "x.tbl" "b"] ]} : gmap string (list producer)) !! code =
        match ({[ "12" := [Producer "x.tbl" "b"] ]}
                 : gmap string (list producer)) !! code with
        | Some entries => Some (entries ++ producers code recs)
        | None =>
            match producers code recs with
            | [] => None
            | ps => Some ps
            end
        end.
Proof.
  apply (scan_extends_dictionary tables_ab ["duplication.py"; "a.tbl"] 2 "a.tbl").
  vm_compute. reflexivity.
Defined.

Lemma producers_NoDup code (recs : list (string * producer)) :
  NoDup recs.*1 → length (producers code recs) ≤ 1.
Proof.
  unfold producers. induction recs as [|[c p] recs IH]; [simpl; lia|].
  cbn [fmap list_fmap fst]. intros [Hc Hrecs]%NoDup_cons.
  rewrite filter_cons. cbn [fst]. destruct (decide (c = code)) as [->|Hne];
    [|by apply IH].
  cbn [fmap list_fmap length].
  destruct (filter (λ r, r.1 = code) recs) as [|[c' p'] rs] eqn:Hfilter;
    [simpl; lia|].
  assert ((c', p') ∈ filter (λ r, r.1 = code) recs) as Hin
    by (rewrite Hfilter; left).
  apply list_elem_of_filter in Hin as [Hc' Hin]. simpl in Hc'. subst c'.
  destruct Hc. apply list_elem_of_fmap. by exists (code, p').
Qed.

(** X2: when the scan ends and no two records of the scanned closure
    produce the same code, the run prints nothing and ends normally. *)
Theorem no_duplicate_no_report fs argv fuel root recs :
  argv !! 1 = Some root →
  Closure.records fs argv fuel root = Ret recs →
  NoDup recs.*1 →
  Duplication.main fs argv fuel = ([], Ret ()).
Proof.
  intros Hroot Hrecs Hnodup. unfold Duplication.main, index.
  rewrite Hroot. cbn [mbind res_bind]. rewrite scanFile_records, Hrecs.
  cbn [mbind res_bind]. rewrite report_lines. f_equal.
  rewrite (flat_map_ext_elem _ (λ _, [])).
  { induction (map_to_list _) as [|kv l IH]; [done|]. apply IH. }
  intros [code ps] Hin%elem_of_map_to_list. unfold lines_of. cbn [fst snd].
  rewrite add_records_lookup, lookup_empty in Hin.
  pose proof (producers_NoDup code recs Hnodup) as Hlen.
  destruct (producers code recs) as [|p ps'] eqn:Hps; [done|].
  injection Hin as <-. destruct ps' as [|p' ps']; [done|]. simpl in Hlen. lia.
Qed.

Lemma no_duplicate_no_report_witness :
  Duplication.main
    (files [("a.tbl", text ["include b.tbl"; "letter a 1"; "letter b 12"]);
            ("b.tbl", text ["digit 1 2"; "# digit 2 12"])])
    ["duplication.py"; "a.tbl"] 2 = ([], Ret ()).
Proof.
  apply (no_duplicate_no_report _ _ 2 "a.tbl"
           [("2", Producer "b.tbl" "1"); ("1", Producer "a.tbl" "a");
            ("12", Producer "a.tbl" "b")]); [reflexivity..|].
  apply (bool_decide_unpack _). vm_compute. exact I.
Defined.

(** ** The scan without recursion *)

(** With a second argument no line makes a recursive call or raises. *)
Lemma records_lines_no_recursion argv rec path lines :
  2 < length argv →
  ∃ recs, Closure.records_lines argv rec path lines = Ret recs ∧
          Forall (λ r, file r.2 = path) recs.
Proof.
  intros Hargv. apply Nat.leb_gt in Hargv.
  induction lines as [|ln lines (rest & Hrest & Hfiles)]; [by exists []|].
  cbn [Closure.records_lines]. rewrite Hrest. unfold Closure.records_body.
  rewrite Hargv.
  destruct (Py.split_ws ln) as [|l0 fields]; [by exists rest|].
  destruct (Py.startswith l0 "#"); [by exists rest|].
  destruct (Py.startswith l0 "include"); [by exists rest|].
  destruct fields as [|l1 [|l2 fields]]; [by exists rest..|].
  eexists. split; [done|]. by constructor.
Qed.

(** X3: with a second argument, whatever it is, the scanner needs the root
    table alone: when that file is there the run ends normally, whatever
    the lines of the table are and whatever other files exist, and every
    producer of the dictionary it reports from has the root table as its
    file. *)
Theorem no_recursion_is_total fs argv root content fuel :
  2 < length argv →
  argv !! 1 = Some root →
  fs root = Some content →
  ∃ result : gmap string (list producer),
    Duplication.scanFile fs argv (S fuel) root ∅ = Ret result ∧
    Duplication.main fs argv (S fuel) = (Duplication.report result, Ret ()) ∧
    ∀ code ps p, result !! code = Some ps → p ∈ ps → file p = root.
Proof.
  intros Hargv Hroot Hcontent.
  destruct (records_lines_no_recursion argv (Closure.records fs argv fuel) root
              (Py.readlines content) Hargv) as (recs & Hrecs & Hfiles).
  assert (Duplication.scanFile fs argv (S fuel) root ∅ =
          Ret (foldl add_record ∅ recs)) as Hscan.
  { rewrite scanFile_records. cbn [Closure.records]. unfold open.
    rewrite Hcontent. cbn [mbind res_bind]. by rewrite Hrecs. }
  exists (foldl add_record ∅ recs). split; [done|]. split.
  - unfold Duplication.main, index. rewrite Hroot. cbn [mbind res_bind].
    by rewrite Hscan.
  - intros code ps p. rewrite add_records_lookup, lookup_empty.
    destruct (producers code recs) as [|p' ps'] eqn:Hps; [done|].
    intros [= <-] Hp. rewrite <-Hps in Hp. unfold producers in Hp.
    apply list_elem_of_fmap in Hp as [[c q] [-> [_ Hin]%list_elem_of_filter]].
    by apply (proj1 (Forall_forall _ _) Hfiles (c, q)).
Qed.

Lemma no_recursion_is_total_witness :
  ∃ result : gmap string (list producer),
    Duplication.scanFile tables_missing ["duplication.py"; "a.tbl"; "-n"] 1
      "a.tbl" ∅ = Ret result ∧
    Duplication.main tables_missing ["duplication.py"; "a.tbl"; "-n"] 1 =
      (Duplication.report result, Ret ()) ∧
    ∀ code ps p, result !! code = Some ps → p ∈ ps → file p = "a.tbl".
Proof.
  apply (no_recursion_is_total tables_missing ["duplication.py"; "a.tbl"; "-n"]
           "a.tbl" (text ["sign a 1"; "include b.tbl"]) 0);
    [repeat constructor|reflexivity|reflexivity].
Defined.

(** ** The files of the producers *)

Lemma records_lines_files_exist (fs : filesystem) argv rec path lines recs :
  is_Some (fs path) →
  (∀ f rs, rec f = Ret rs → Forall (λ r, is_Some (fs (file r.2))) rs) →
  Closure.records_lines argv rec path lines = Ret recs →
  Forall (λ r, is_Some (fs (file r.2))) recs.
Proof.
  intros Hpath Hrec. revert recs. induction lines as [|ln lines IH]; intros recs.
  { by intros [= <-]. }
  cbn [Closure.records_lines].
  destruct (Closure.records_body argv rec path ln) as [rs| |] eqn:Hbody; [|done..].
  destruct (Closure.records_lines argv rec path lines) as [rest| |]; [|done..].
  intros [= <-]. apply Forall_app. split; [|by apply IH].
  revert Hbody. unfold Closure.records_body.
  destruct (Py.split_ws ln) as [|l0 fields]; [by intros [= <-]|].
  destruct (Py.startswith l0 "#"); [by intros [= <-]|].
  destruct (Py.startswith l0 "include").
  - destruct (length argv <=? 2); [|by intros [= <-]].
    destruct (index fields 0) as [l1| |]; [|done..]. apply Hrec.
  - destruct fields as [|l1 [|l2 fields]]; intros [= <-]; [done..|].
    by constructor.
Qed.

Lemma records_files_exist (fs : filesystem) argv fuel path recs :
  Closure.records fs argv fuel path = Ret recs →
  Forall (λ r, is_Some (fs (file r.2))) recs.
Proof.
  revert path recs. induction fuel as [|fuel IH]; intros path recs; [done|].
  cbn [Closure.records]. unfold open.
  destruct (fs path) as [content|] eqn:Hpath; [|done]. cbn [mbind res_bind].
  apply records_lines_files_exist; [by rewrite Hpath|apply IH].
Qed.

(** X4: every producer of the dictionary of a scan that ends names a file
    that is there: the file whose line made the record, which the scan has
    opened. *)
Theorem producer_files_exist (fs : filesystem) argv fuel root
    (result : gmap string (list producer)) :
  Duplication.scanFile fs argv fuel root ∅ = Ret result →
  ∀ code ps p, result !! code = Some ps → p ∈ ps → is_Some (fs (file p)).
Proof.
  rewrite scanFile_records.
  destruct (Closure.records fs argv fuel root) as [recs| |] eqn:Hrecs; [|done..].
  intros [= <-] code ps p. rewrite add_records_lookup, lookup_empty.
  destruct (producers code recs) as [|p' ps'] eqn:Hps; [done|].
  intros [= <-] Hp. rewrite <-Hps in Hp. unfold producers in Hp.
  apply list_elem_of_fmap in Hp as [[c q] [-> [_ Hin]%list_elem_of_filter]].
  by apply (proj1 (Forall_forall _ _) (records_files_exist _ _ _ _ _ Hrecs) (c, q)).
Qed.

Lemma producer_files_exist_witness :
  is_Some (tables_ab (file (Producer "b.tbl" "\x61"))).
Proof.
  apply (producer_files_exist tables_ab ["duplication.py"; "a.tbl"] 2 "a.tbl"
           {[ "61" := [Producer "b.tbl" "\x61"; Producer "a.tbl" "\x61"] ]}
           eq_refl "61" [Producer "b.tbl" "\x61"; Producer "a.tbl" "\x61"]);
    [reflexivity|left].
Defined.

(** ** An [include] line without a file name *)

(** X5: an [include] line that has nothing after its first field makes the
    scanner fail when it follows includes: [line[1]] is out of range, the
    [IndexError] is not caught and nothing is printed, whatever the lines
    before it have recorded. *)
Theorem scanner_bare_include fs argv root fuel content pre ln post l0 recs :
  length argv ≤ 2 →
  argv !! 1 = Some root →
  fs root = Some content →
  Py.readlines content = pre ++ ln :: post →
  Closure.records_lines argv (Closure.records fs argv fuel) root pre = Ret recs →
  Py.split_ws ln = [l0] →
  Py.startswith l0 "#" = false →
  Py.startswith l0 "include" = true →
  Duplication.main fs argv (S fuel) = ([], Raise IndexError).
Proof.
  intros Hargv Hroot Hcontent Hlines Hpre Hsplit Hcomment Hinclude.
  unfold Duplication.main, index. rewrite Hroot. cbn [mbind res_bind].
  cbn [Duplication.scanFile]. unfold open. rewrite Hcontent.
  cbn [mbind res_bind]. rewrite Hlines, for_each_app.
  rewrite (scanFile_lines_records _ _ (Closure.records fs argv fuel))
    by (intros; apply scanFile_records).
  rewrite Hpre. cbn [mbind res_bind for_each].
  rewrite (scanFile_body_fields _ _ _ _ _ _ _ Hsplit Hcomment), Hinclude.
  by apply Nat.leb_le in Hargv as ->.
Qed.

Lemma scanner_bare_include_witness :
  Duplication.main (files [("a.tbl", text ["sign a 1"; "sign b 1"; "include"])])
    ["duplication.py"; "a.tbl"] 1 = ([], Raise IndexError).
Proof.
  apply (scanner_bare_include _ _ "a.tbl" 0
           (text ["sign a 1"; "sign b 1"; "include"])
           ["sign a 1" +:+ nl; "sign b 1" +:+ nl] ("include" +:+ nl) [] "include"
           [("1", Producer "a.tbl" "a"); ("1", Producer "a.tbl" "b")]);
    reflexivity.
Defined.

(** X6: the finder, which follows every [include] line, fails in the same
    way on an [include] line without a second field that it reaches before
    a hit. *)
Theorem finder_bare_include fs argv root fuel content pre ln post l0 :
  argv !! 2 = Some root →
  fs root = Some content →
  Py.readlines content = pre ++ ln :: post →
  FindCombination.scan_loop argv (FindCombination.scan fs argv fuel) root pre 0
    = Ret Next →
  Py.split_ws ln = [l0] →
  Py.startswith l0 "#" = false →
  Py.startswith l0 "include" = true →
  FindCombination.main fs argv (S fuel) = ([], Raise IndexError).
Proof.
  intros Hroot Hcontent Hlines Hpre Hsplit Hcomment Hinclude.
  unfold FindCombination.main, index. rewrite Hroot. cbn [mbind res_bind].
  cbn [FindCombination.scan]. unfold open. rewrite Hcontent.
  cbn [mbind res_bind]. rewrite Hlines, scan_loop_app, Hpre.
  cbn [mbind res_bind FindCombination.scan_loop].
  by rewrite (scan_body_fields _ _ _ _ _ _ _ Hsplit Hcomment), Hinclude.
Qed.

Lemma finder_bare_include_witness :
  FindCombination.main (files [("a.tbl", text ["sign a 1"; "include"; "sign b 2"])])
    ["find_combination.py"; "2"; "a.tbl"] 1 = ([], Raise IndexError).
Proof.
  apply (finder_bare_include _ _ "a.tbl" 0
           (text ["sign a 1"; "include"; "sign b 2"])
           ["sign a 1" +:+ nl] ("include" +:+ nl) ["sign b 2" +:+ nl] "include");
    reflexivity.
Defined.

(** ** Tables that include each other *)

Lemma records_lines_fuel_cases fs argv fuel0 fuel path lines recs :
  Closure.records_lines argv (Closure.records fs argv fuel0) path lines = Ret recs →
  Closure.records_lines argv (Closure.records fs argv fuel) path lines = Ret recs ∨
  Closure.records_lines argv (Closure.records fs argv fuel) path lines = OutOfFuel.
Proof.
  intros H0.
  assert (Closure.records_lines argv (Closure.records fs argv (fuel0 `max` fuel))
            path lines = Ret recs) as Hmax.
  { rewrite <-H0. apply records_lines_refines; [|by rewrite H0].
    intros f. apply records_refines. lia. }
  pose proof (records_lines_refines argv (Closure.records fs argv fuel)
                (Closure.records fs argv (fuel0 `max` fuel)) path lines) as Href.
  destruct (Closure.records_lines argv (Closure.records fs argv fuel) path lines)
    as [recs'| |] eqn:Hfuel; [left|exfalso|by right].
  - rewrite <-Hmax. symmetry. apply Href; [|done].
    intros f. apply records_refines. lia.
  - rewrite Href in Hmax; [done| |done]. intros f. apply records_refines. lia.
Qed.

Lemma scanFile_cycle fs argv (cyc : string → Prop) fuel path result :
  length argv ≤ 2 → scanner_cycle fs argv cyc → cyc path →
  Duplication.scanFile fs argv fuel path result = OutOfFuel.
Proof.
  intros Hargv Hcyc. revert path result.
  induction fuel as [|fuel IH]; intros path result Hpath; [done|].
  destruct (Hcyc path Hpath)
    as (content & pre & ln & post & l0 & l1 & fields & fuel0 & recs &
        Hcontent & Hlines & Hpre & Hsplit & Hcomment & Hinclude & Hl1).
  cbn [Duplication.scanFile]. unfold open. rewrite Hcontent.
  cbn [mbind res_bind]. rewrite Hlines, for_each_app.
  rewrite (scanFile_lines_records _ _ (Closure.records fs argv fuel))
    by (intros; apply scanFile_records).
  destruct (records_lines_fuel_cases _ _ _ fuel _ _ _ Hpre) as [-> | ->]; [|done].
  cbn [mbind res_bind for_each].
  rewrite (scanFile_body_fields _ _ _ _ _ _ _ Hsplit Hcomment), Hinclude.
  apply Nat.leb_le in Hargv as ->.
  cbn [index lookup list_lookup mbind res_bind]. by rewrite IH.
Qed.

(** X7: the scanner has no guard against tables that include each other.
    When the root table belongs to a set of tables in which each one comes,
    after lines read without an exception, to an [include] line naming a
    table of the set, the scan without a second argument never ends by
    itself: no amount of fuel gives a report or an exception of the script
    (what stops the run is the recursion limit of the interpreter, which is
    not modelled). *)
Theorem scanner_cycle_never_ends fs argv (cyc : string → Prop) root :
  length argv ≤ 2 →
  argv !! 1 = Some root →
  scanner_cycle fs argv cyc →
  cyc root →
  ∀ fuel, Duplication.main fs argv fuel = ([], OutOfFuel).
Proof.
  intros Hargv Hroot Hcyc Hin fuel. unfold Duplication.main, index.
  rewrite Hroot. cbn [mbind res_bind]. by rewrite (scanFile_cycle _ _ cyc).
Qed.

Lemma scanner_cycle_never_ends_witness :
  Duplication.main tables_cycle ["duplication.py"; "a.tbl"] 1000 = ([], OutOfFuel).
Proof.
  refine (scanner_cycle_never_ends tables_cycle ["duplication.py"; "a.tbl"]
            (λ f, f = "a.tbl" ∨ f = "b.tbl") "a.tbl" _ _ _ _ 1000);
    [repeat constructor|reflexivity| |by left].
  intros f [->| ->].
  - exists (text ["sign a 1"; "include b.tbl"; "sign b 1"]),
      ["sign a 1" +:+ nl], ("include b.tbl" +:+ nl), ["sign b 1" +:+ nl],
      "include", "b.tbl", [], 0, [("1", Producer "a.tbl" "a")].
    repeat split; by right.
  - exists (text ["# back"; "include a.tbl"]),
      ["# back" +:+ nl], ("include a.tbl" +:+ nl), [],
      "include", "a.tbl", [], 0, [].
    repeat split; by left.
Defined.

Lemma scan_loop_fuel_cases fs argv fuel0 fuel path lines n :
  FindCombination.scan_loop argv (FindCombination.scan fs argv fuel0) path lines n
    = Ret Next →
  FindCombination.scan_loop argv (FindCombination.scan fs argv fuel) path lines n
    = Ret Next ∨
  FindCombination.scan_loop argv (FindCombination.scan fs argv fuel) path lines n
    = OutOfFuel.
Proof.
  intros H0.
  assert (FindCombination.scan_loop argv
            (FindCombination.scan fs argv (fuel0 `max` fuel)) path lines n
          = Ret Next) as Hmax.
  { rewrite <-H0. apply scan_loop_refines; [|by rewrite H0].
    intros f. apply scan_refines. lia. }
  pose proof (scan_loop_refines argv (FindCombination.scan fs argv fuel)
                (FindCombination.scan fs argv (fuel0 `max` fuel)) path lines n)
    as Href.
  destruct (FindCombination.scan_loop argv (FindCombination.scan fs argv fuel)
              path lines n) as [f| |] eqn:Hfuel; [left|exfalso|by right].
  - rewrite <-Hmax. symmetry. apply Href; [|done].
    intros f'. apply scan_refines. lia.
  - rewrite Href in Hmax; [done| |done]. intros f'. apply scan_refines. lia.
Qed.

Lemma scan_cycle fs argv (cyc : string → Prop) fuel path :
  finder_cycle fs argv cyc → cyc path →
  FindCombination.scan fs argv fuel path = OutOfFuel.
Proof.
  intros Hcyc. revert path.
  induction fuel as [|fuel IH]; intros path Hpath; [done|].
  destruct (Hcyc path Hpath)
    as (content & pre & ln & post & l0 & l1 & fields & fuel0 &
        Hcontent & Hlines & Hpre & Hsplit & Hcomment & Hinclude & Hl1).
  cbn [FindCombination.scan]. unfold open. rewrite Hcontent.
  cbn [mbind res_bind]. rewrite Hlines, scan_loop_app.
  destruct (scan_loop_fuel_cases _ _ _ fuel _ _ _ Hpre) as [-> | ->]; [|done].
  cbn [mbind res_bind FindCombination.scan_loop].
  rewrite (scan_body_fields _ _ _ _ _ _ _ Hsplit Hcomment), Hinclude.
  cbn [index lookup list_lookup mbind res_bind]. by rewrite IH.
Qed.

(** X8: neither has the finder: on tables that include each other, each
    before any hit, the search never ends by itself. *)
Theorem finder_cycle_never_ends fs argv (cyc : string → Prop) root :
  argv !! 2 = Some root →
  finder_cycle fs argv cyc →
  cyc root →
  ∀ fuel, FindCombination.main fs argv fuel = ([], OutOfFuel).
Proof.
  intros Hroot Hcyc Hin fuel. unfold FindCombination.main, index.
  rewrite Hroot. cbn [mbind res_bind]. by rewrite (scan_cycle _ _ cyc).
Qed.

Lemma finder_cycle_never_ends_witness :
  FindCombination.main tables_cycle ["find_combination.py"; "2"; "a.tbl"] 1000
    = ([], OutOfFuel).
Proof.
  refine (finder_cycle_never_ends tables_cycle ["find_combination.py"; "2"; "a.tbl"]
            (λ f, f = "a.tbl" ∨ f = "b.tbl") "a.tbl" _ _ _ 1000);
    [reflexivity| |by left].
  intros f [->| ->].
  - exists (text ["sign a 1"; "include b.tbl"; "sign b 1"]),
      ["sign a 1" +:+ nl], ("include b.tbl" +:+ nl), ["sign b 1" +:+ nl],
      "include", "b.tbl", [], 0.
    repeat split; by right.
  - exists (text ["# back"; "include a.tbl"]),
      ["# back" +:+ nl], ("include a.tbl" +:+ nl), [],
      "include", "a.tbl", [], 0.
    repeat split; by left.
Defined.

(** ** What the finder returns *)

Lemma scan_body_own argv rec path n ln code :
  argv !! 1 = Some code →
  is_include_line ln = false →
  FindCombination.scan_body argv rec path n ln =
    Ret (if is_hit code ln
         then Return (path +:+ " " +:+ Py.str_of_nat n) else Next).
Proof.
  intros Hcode. unfold is_include_line, is_hit.
  destruct (Py.split_ws ln) as [|l0 fields] eqn:Hsplit.
  { intros _. unfold FindCombination.scan_body. by rewrite Hsplit. }
  destruct (Py.startswith l0 "#") eqn:Hcomment.
  { intros _. unfold FindCombination.scan_body. rewrite Hsplit.
    cbn [length Nat.leb index lookup list_lookup mbind res_bind].
    rewrite Hcomment. by destruct fields. }
  cbn [negb andb]. intros Hinclude.
  rewrite (scan_body_fields _ _ _ _ _ _ _ Hsplit Hcomment), Hinclude.
  destruct fields as [|l1 fields]; [done|].
  unfold index. rewrite Hcode. cbn [mbind res_bind negb andb].
  destruct (String.eqb l1 code); [done|].
  destruct fields as [|l2 fields]; [done|]. cbn [orb].
  by destruct (String.eqb l2 code).
Qed.

Lemma scan_body_include argv rec path n ln code f :
  is_include_line ln = true →
  FindCombination.scan_body argv rec path n ln = Ret f →
  f = Next ∧ is_hit code ln = false.
Proof.
  unfold is_include_line, is_hit.
  destruct (Py.split_ws ln) as [|l0 fields] eqn:Hsplit; [done|].
  destruct (Py.startswith l0 "#") eqn:Hcomment; [done|].
  cbn [negb andb]. intros Hinclude.
  rewrite (scan_body_fields _ _ _ _ _ _ _ Hsplit Hcomment), Hinclude.
  destruct fields as [|l1 fields]; [done|].
  cbn [index lookup list_lookup mbind res_bind].
  destruct (rec l1); [|done..]. by intros [= <-].
Qed.

Lemma scan_loop_own argv rec path lines n code f :
  argv !! 1 = Some code →
  FindCombination.scan_loop argv rec path lines n = Ret f →
  match f with Return value => value | Next => "" end =
    own_hit code path lines n.
Proof.
  intros Hcode. revert n. induction lines as [|ln lines IH]; intros n.
  { by intros [= <-]. }
  cbn [FindCombination.scan_loop own_hit].
  destruct (is_include_line ln) eqn:Hinclude.
  - destruct (FindCombination.scan_body argv rec path (n + 1) ln)
      as [f'| |] eqn:Hbody; [|done..].
    destruct (scan_body_include _ _ _ _ _ code _ Hinclude Hbody) as [-> ->].
    cbn [mbind res_bind]. apply IH.
  - rewrite (scan_body_own _ _ _ _ _ _ Hcode Hinclude).
    destruct (is_hit code ln); cbn [mbind res_bind]; [by intros [= <-]|apply IH].
Qed.

(** X9: what the finder prints is decided by the lines of the root table
    alone.  When the run ends normally, it has printed the root table with
    the number of its first line that has the code as second or third field
    (comment and [include] lines apart), or an empty line when the root
    table has no such line: never a line of an included table. *)
Theorem finder_prints_own_hit fs argv fuel code root out :
  argv !! 1 = Some code →
  argv !! 2 = Some root →
  FindCombination.main fs argv fuel = (out, Ret ()) →
  ∃ content,
    fs root = Some content ∧
    out = [own_hit code root (Py.readlines content) 0].
Proof.
  intros Hcode Hroot. unfold FindCombination.main, index. rewrite Hroot.
  cbn [mbind res_bind]. destruct fuel as [|fuel]; [done|].
  cbn [FindCombination.scan]. unfold open.
  destruct (fs root) as [content|]; [|done]. cbn [mbind res_bind].
  destruct (FindCombination.scan_loop _ _ _ _ _) as [f| |] eqn:Hloop; [|done..].
  pose proof (scan_loop_own _ _ _ _ _ _ _ Hcode Hloop) as Hown.
  exists content. split; [done|].
  destruct f; cbn [mbind res_bind] in *; congruence.
Qed.

Lemma finder_prints_own_hit_witness :
  ∃ content,
    tables_ab "a.tbl" = Some content ∧
    ["a.tbl 2"] = [own_hit "61" "a.tbl" (Py.readlines content) 0].
Proof.
  apply (finder_prints_own_hit tables_ab ["find_combination.py"; "61"; "a.tbl"] 2);
    reflexivity.
Defined.

(** X10: on a root table without [include] lines the finder needs no other
    file and always ends: it prints the first hit of the table, or an empty
    line. *)
Theorem finder_without_includes fs argv fuel code root content :
  argv !! 1 = Some code →
  argv !! 2 = Some root →
  fs root = Some content →
  Forall (λ ln, is_include_line ln = false) (Py.readlines content) →
  FindCombination.main fs argv (S fuel) =
    ([own_hit code root (Py.readlines content) 0], Ret ()).
Proof.
  intros Hcode Hroot Hcontent Hlines.
  unfold FindCombination.main, index. rewrite Hroot. cbn [mbind res_bind].
  cbn [FindCombination.scan]. unfold open. rewrite Hcontent.
  cbn [mbind res_bind].
  assert (∀ lines n,
            Forall (λ ln, is_include_line ln = false) lines →
            FindCombination.scan_loop argv (FindCombination.scan fs argv fuel)
              root lines n =
            Ret (match own_hit code root lines n with
                 | "" => Next
                 | value => Return value
                 end)) as Hloop.
  { clear Hlines. intros lines. induction lines as [|ln lines IH]; intros n;
      [done|]. intros [Hln Hrest]%Forall_cons.
    cbn [FindCombination.scan_loop own_hit].
    rewrite (scan_body_own _ _ _ _ _ _ Hcode Hln).
    destruct (is_hit code ln); cbn [mbind res_bind]; [|by apply IH].
    by destruct root. }
  rewrite Hloop by done.
  by destruct (own_hit code root (Py.readlines content) 0).
Qed.

Lemma finder_without_includes_witness :
  FindCombination.main (files [("b.tbl", text ["# letters"; "letter a 1"; "letter b 12"])])
    ["find_combination.py"; "12"; "b.tbl"] 1 = (["b.tbl 3"], Ret ()).
Proof.
  apply (finder_without_includes _ _ 0 "12" "b.tbl"
           (text ["# letters"; "letter a 1"; "letter b 12"])); try reflexivity.
  apply (bool_decide_unpack _). vm_compute. exact I.
Defined.

(** ** Character tokens that can be decoded *)

Lemma isspace_lower a : Py.isspace (Py.lower_ascii a) = Py.isspace a.
Proof. by destruct a as [[] [] [] [] [] [] [] []]. Qed.

Lemma has_space_lower s : has_space (Py.lower s) = has_space s.
Proof.
  induction s as [|a s IH]; [done|]. simpl. by rewrite isspace_lower, IH.
Qed.

Lemma split_go_no_space sep skip s :
  has_space s = false →
  Forall (λ p, has_space p = false) (Py.split_go sep skip s).
Proof.
  revert skip. induction s as [|a s IH]; intros skip; [by repeat constructor|].
  cbn [has_space]. intros [Ha Hs]%orb_false_elim. cbn [Py.split_go].
  destruct skip as [|skip]; [|by apply IH].
  destruct (String.prefix sep (String a s)); [constructor; [done|by apply IH]|].
  pose proof (IH 0 Hs) as Hrest.
  destruct (Py.split_go sep 0 s) as [|p ps].
  { constructor; [|constructor]. cbn [has_space]. by rewrite Ha. }
  apply Forall_cons in Hrest as [Hp Hps]. constructor; [|done].
  cbn [has_space]. by rewrite Ha, Hp.
Qed.

Lemma decode_item_inv item symbol r :
  has_space item = false →
  Duplication.decode_item item symbol = Ret r →
  ∃ c, item ≠ "" ∧ Py.hex_digits 0 item = Some (N_of_ascii c) ∧
       r = symbol +:+ String c "".
Proof.
  intros Hspace. unfold Duplication.decode_item, Py.int_0x.
  rewrite strip_no_space
    by (rewrite !app_String; simpl; change ("" +:+ item) with item; done).
  rewrite !app_String. change ("" +:+ item) with item. cbv beta iota.
  destruct item as [|a ds]; [done|].
  destruct (Py.hex_digits 0 (String a ds)) as [n|]; [|done].
  cbn [mbind res_bind]. unfold Py.format_c.
  destruct (n <? 256)%N eqn:Hn; [|done]. cbn [mbind res_bind].
  intros [= <-]. exists (ascii_of_N n). split; [done|]. split; [|done].
  f_equal. symmetry. apply N_ascii_embedding. by apply N.ltb_lt.
Qed.

Lemma decode_items_inv items symbol r :
  Forall (λ item, has_space item = false) items →
  for_each Duplication.decode_item items symbol = Ret r →
  ∃ cs,
    Forall2 (λ item c, item ≠ "" ∧ Py.hex_digits 0 item = Some (N_of_ascii c))
            items cs ∧
    r = symbol +:+ String.string_of_list_ascii cs.
Proof.
  intros Hitems. revert symbol.
  induction Hitems as [|item items Hitem _ IH]; intros symbol.
  { intros [= <-]. exists []. split; [constructor|]. simpl.
    by rewrite app_empty_r. }
  cbn [for_each].
  destruct (Duplication.decode_item item symbol) as [symbol'| |] eqn:Hdecode;
    [|done..].
  cbn [mbind res_bind]. intros Hrest.
  destruct (decode_item_inv _ _ _ Hitem Hdecode) as (c & Hne & Hhex & ->).
  destruct (IH _ Hrest) as (cs & Hcs & ->).
  exists (c :: cs). split; [by constructor|]. simpl. by rewrite app_assoc_s.
Qed.

(** X11: a character token that the report loop decodes is well formed.
    When a token without whitespace (a field of a line) starts with [\x] in
    either case and its decoding does not raise, every piece between the
    [\x] marks is a non-empty hexadecimal number of a byte, and the decoded
    string is made of these bytes, one character for each piece.  So a
    token with an empty piece, a piece that is no hexadecimal number or a
    piece above [ff] is one of the entries that get [error]. *)
Theorem decoded_token_is_well_formed symbol decoded :
  has_space symbol = false →
  Py.startswith (Py.lower symbol) "\x" = true →
  Duplication.decode_symbol symbol = Ret decoded →
  ∃ cs,
    Forall2 (λ item c, item ≠ "" ∧ Py.hex_digits 0 item = Some (N_of_ascii c))
            (drop 1 (Py.split (Py.lower symbol) "\x")) cs ∧
    decoded = String.string_of_list_ascii cs.
Proof.
  intros Hspace Hstart. unfold Duplication.decode_symbol. rewrite Hstart.
  intros Hdecode. apply decode_items_inv in Hdecode; [done|].
  apply Forall_drop, split_go_no_space. by rewrite has_space_lower.
Qed.

Lemma decoded_token_is_well_formed_witness :
  ∃ cs,
    Forall2 (λ item c, item ≠ "" ∧ Py.hex_digits 0 item = Some (N_of_ascii c))
            (drop 1 (Py.split (Py.lower "\X2E\x2c") "\x")) cs ∧
    ".," = String.string_of_list_ascii cs.
Proof.
  apply (decoded_token_is_well_formed "\X2E\x2c" ".,"); reflexivity.
Defined.

(** ** The name of a declaration line *)

Lemma lstrip_all_space indent s :
  all_space indent = true → Py.lstrip (indent +:+ s) = Py.lstrip s.
Proof.
  induction indent as [|a indent IH]; [done|]. cbn [all_space].
  intros [Ha Hindent]%andb_true_iff. rewrite app_String. cbn [Py.lstrip].
  rewrite Ha. by apply IH.
Qed.

(** [rstrip] leaves what stands before a character that is no whitespace. *)
Lemma rstrip_keeps p c s :
  Py.isspace c = false → ∃ r, Py.rstrip (p +:+ String c s) = p +:+ String c r.
Proof.
  intros Hc. induction p as [|a p [r IH]].
  - change ("" +:+ String c s) with (String c s). cbn [Py.rstrip].
    destruct (Py.rstrip s) as [|b r]; [|by eexists].
    rewrite Hc. by exists "".
  - rewrite app_String. cbn [Py.rstrip]. rewrite IH.
    exists r. rewrite app_String. by destruct p.
Qed.

Lemma is_declaration_opening indent tail :
  all_space indent = true →
  is_declaration (indent +:+ "<string name=" +:+ Compare.dquote +:+ tail) = true.
Proof.
  intros Hindent. unfold is_declaration, Py.strip.
  rewrite lstrip_all_space by done.
  change (Py.lstrip ("<string name=" +:+ Compare.dquote +:+ tail))
    with ("<string name=" +:+ String "034" tail).
  destruct (rstrip_keeps "<string name=" "034" tail) as [r ->]; [done|].
  apply prefix_app.
Qed.

(** The position of the first [name=] followed by a double quote. *)
Lemma index_name_attribute indent tail :
  all_space indent = true →
  String.index 0 ("name=" +:+ Compare.dquote)
    (indent +:+ "<string name=" +:+ Compare.dquote +:+ tail) =
    Some (String.length indent + 8).
Proof.
  intros Hindent.
  set (pat' := "me=" +:+ Compare.dquote).
  change ("name=" +:+ Compare.dquote) with (String "n" (String "a" pat')).
  rewrite index_skip by (by apply all_space_has_char).
  change ("<string name=" +:+ Compare.dquote +:+ tail)
    with ("<stri" +:+ String "n" (String "g" (String " "
            (String "n" (String "a" pat') +:+ tail)))).
  rewrite index_skip by done.
  rewrite index_0_String, prefix_eq, prefix_ne by done.
  rewrite index_0_String, prefix_ne by done.
  rewrite index_0_String, prefix_ne by done.
  by rewrite index_here.
Qed.

(** The two first searches of [getName] on a line that opens a declaration:
    the place after the opening quote. *)
Lemma getName_opening indent tail :
  all_space indent = true →
  Compare.getName (indent +:+ "<string name=" +:+ Compare.dquote +:+ tail) =
    stop ← Py.index_from
              ((indent +:+ "<string name=" +:+ Compare.dquote) +:+ tail)
              Compare.dquote
              (String.length (indent +:+ "<string name=" +:+ Compare.dquote));
    Ret (Py.slice ((indent +:+ "<string name=" +:+ Compare.dquote) +:+ tail)
           (String.length (indent +:+ "<string name=" +:+ Compare.dquote)) stop).
Proof.
  intros Hindent. unfold Compare.getName, Py.index_from.
  rewrite index_name_attribute by done. cbn [mbind res_bind].
  assert (String.length (indent +:+ "<string ") = String.length indent + 8) as Hlen
    by (by rewrite length_app_s).
  assert (indent +:+ "<string name=" +:+ Compare.dquote +:+ tail =
          (indent +:+ "<string ") +:+ "name=" +:+ Compare.dquote +:+ tail) as Hline
    by (by rewrite app_assoc_s).
  rewrite Hline at 1. rewrite <-Hlen, index_app_offset.
  change Compare.dquote with (String "034" "").
  rewrite index_skip, index_here by done.
  cbn [fmap option_fmap option_map mbind res_bind].
  assert (String.length (indent +:+ "<string ") + (String.length "name=" + 0) + 1
          = String.length (indent +:+ "<string name=" +:+ String "034" "")) as ->
    by (rewrite !length_app_s; simpl; lia).
  assert (indent +:+ "<string name=" +:+ String "034" "" +:+ tail =
          (indent +:+ "<string name=" +:+ String "034" "") +:+ tail) as ->
    by (by rewrite !app_assoc_s).
  done.
Qed.

(** X12: [getName] reads the name of a declaration line.  On a line made of
    an indentation, [<string name=], a name in double quotes that holds no
    double quote, and anything after it, the line is taken for a
    declaration and [getName] returns the name, whatever follows. *)
Theorem declaration_name indent name rest :
  all_space indent = true →
  has_char "034" name = false →
  is_declaration (declaration indent name rest) = true ∧
  Compare.getName (declaration indent name rest) = Ret name.
Proof.
  intros Hindent Hname. unfold declaration. split.
  { by apply is_declaration_opening. }
  rewrite getName_opening by done. unfold Py.index_from, Py.slice.
  rewrite index_app_offset. change Compare.dquote with (String "034" "").
  rewrite index_skip, index_here by done.
  cbn [fmap option_fmap option_map mbind res_bind]. f_equal.
  replace (_ + (String.length name + 0) - _) with (String.length name) by lia.
  by rewrite substring_app_offset, substring_prefix.
Qed.

Lemma declaration_name_witness :
  is_declaration
    (declaration "    " "app_name" ">Soft Braille Keyboard</string>") = true ∧
  Compare.getName
    (declaration "    " "app_name" ">Soft Braille Keyboard</string>")
    = Ret "app_name".
Proof. apply declaration_name; reflexivity. Defined.

(** X13: a declaration line whose quote is not closed is taken for a
    declaration, and [getName] raises [ValueError] on it. *)
Theorem unclosed_declaration_raises indent tail :
  all_space indent = true →
  has_char "034" tail = false →
  is_declaration (unclosed_declaration indent tail) = true ∧
  Compare.getName (unclosed_declaration indent tail) = Raise ValueError.
Proof.
  intros Hindent Htail. unfold unclosed_declaration. split.
  { by apply is_declaration_opening. }
  rewrite getName_opening by done. unfold Py.index_from.
  rewrite index_app_offset. change Compare.dquote with (String "034" "").
  by rewrite index_none.
Qed.

Lemma unclosed_declaration_raises_witness :
  is_declaration (unclosed_declaration "  " "app_name>Keyboard</string>") = true ∧
  Compare.getName (unclosed_declaration "  " "app_name>Keyboard</string>")
    = Raise ValueError.
Proof. apply unclosed_declaration_raises; reflexivity. Defined.

(** ** How the string-diff tool ends *)

Lemma getName_cases s :
  Compare.getName s = Raise ValueError ∨ ∃ name, Compare.getName s = Ret name.
Proof.
  unfold Compare.getName, Py.index_from.
  destruct (String.index 0 _ s) as [i|]; [|by left]. cbn [mbind res_bind].
  destruct (String.index i _ s) as [j|]; [|by left]. cbn [mbind res_bind].
  destruct (String.index (j + 1) _ s) as [k|]; [|by left]. right. by eexists.
Qed.

Lemma load_body_ok line st :
  (is_declaration line = true → returns (Compare.getName line)) →
  ∃ st', Compare.load_body line st = Ret st'.
Proof.
  unfold Compare.load_body. fold (is_declaration line).
  destruct (is_declaration line); [|by eexists]. intros Hname.
  specialize (Hname eq_refl).
  destruct (Compare.getName line) as [name| |]; [by eexists|done..].
Qed.

Lemma load_body_bad line st :
  ¬ (is_declaration line = true → returns (Compare.getName line)) →
  Compare.load_body line st = Raise ValueError.
Proof.
  unfold Compare.load_body. fold (is_declaration line).
  destruct (is_declaration line); [|by intros []]. intros Hname.
  destruct (getName_cases line) as [->|[name Hn]]; [done|].
  destruct Hname. intros _. by rewrite Hn.
Qed.

(** The loop filling a dictionary ends with the dictionary when every
    declaration line has a name, and raises [ValueError] otherwise. *)
Lemma load_loop_cases lines st :
  if decide (Forall (λ line, is_declaration line = true →
                             returns (Compare.getName line)) lines)
  then ∃ st', for_each Compare.load_body lines st = Ret st'
  else for_each Compare.load_body lines st = Raise ValueError.
Proof.
  revert st. induction lines as [|line lines IH]; intros st.
  { rewrite decide_True by constructor. by eexists. }
  cbn [for_each].
  destruct (decide (is_declaration line = true → returns (Compare.getName line)))
    as [Hline|Hline].
  - destruct (load_body_ok line st Hline) as [st' ->]. cbn [mbind res_bind].
    specialize (IH st').
    destruct (decide (Forall _ lines)) as [Hlines|Hlines].
    + by rewrite decide_True by (by constructor).
    + rewrite decide_False; [done|]. by intros [_ ?]%Forall_cons.
  - rewrite (load_body_bad line st Hline), decide_False; [done|].
    by intros [? _]%Forall_cons.
Qed.

Lemma load_cases content :
  if decide (well_formed content)
  then ∃ d, Compare.load content = Ret d
  else Compare.load content = Raise ValueError.
Proof.
  unfold Compare.load, well_formed.
  pose proof (load_loop_cases (Py.readlines content) (0, ∅)) as Hloop.
  destruct (decide (Forall _ _)); [|by rewrite Hloop].
  destruct Hloop as [st' ->]. by eexists.
Qed.

Lemma compare_main_unfold fs prog a1 a2 :
  Compare.main fs [prog; a1; a2] =
    match fs a1, fs a2 with
    | Some c1, Some c2 =>
        match Compare.load c1 with
        | Ret d1 =>
            match Compare.load c2 with
            | Ret d2 =>
                (Compare.header a1 :: Compare.section d1 d2 ++
                 Compare.header a2 :: Compare.section d2 d1, Ret ())
            | Raise e => ([], Raise e)
            | OutOfFuel => ([], OutOfFuel)
            end
        | Raise e => ([], Raise e)
        | OutOfFuel => ([], OutOfFuel)
        end
    | _, _ => ([], Raise IOError)
    end.
Proof.
  unfold Compare.main, index, open. cbn [lookup list_lookup mbind res_bind].
  destruct (fs a1) as [c1|]; [|done]. cbn [mbind res_bind].
  destruct (fs a2) as [c2|]; [|done]. cbn [mbind res_bind].
  destruct (Compare.load c1) as [d1| |]; [|done..]. cbn [mbind res_bind].
  by destruct (Compare.load c2) as [d2| |].
Qed.

(** X14: how a run of the string-diff tool on two paths ends.  When one of
    the files is missing, whichever, the run ends with an uncaught
    [IOError], also when the file that is there is malformed: both files
    are opened before one is read.  When both are there and a declaration
    line of either has no name that [getName] can read, it ends with an
    uncaught [ValueError].  In both cases nothing is printed, not even the
    first heading.  Otherwise it ends normally, having printed the two
    headings, each followed by its section. *)
Theorem compare_outcome fs prog a1 a2 :
  match fs a1, fs a2 with
  | Some c1, Some c2 =>
      if decide (well_formed c1 ∧ well_formed c2)
      then ∃ sec1 sec2,
             Compare.main fs [prog; a1; a2] =
               (Compare.header a1 :: sec1 ++ Compare.header a2 :: sec2, Ret ())
      else Compare.main fs [prog; a1; a2] = ([], Raise ValueError)
  | _, _ => Compare.main fs [prog; a1; a2] = ([], Raise IOError)
  end.
Proof.
  rewrite compare_main_unfold.
  destruct (fs a1) as [c1|]; [|done]. destruct (fs a2) as [c2|]; [|done].
  pose proof (load_cases c1) as H1. pose proof (load_cases c2) as H2.
  destruct (decide (well_formed c1)) as [Hwf1|Hwf1].
  - destruct H1 as [d1 ->]. destruct (decide (well_formed c2)) as [Hwf2|Hwf2].
    + destruct H2 as [d2 ->]. rewrite decide_True by done. by eexists _, _.
    + rewrite H2, decide_False; [done|]. by intros [_ ?].
  - rewrite H1, decide_False; [done|]. by intros [? _].
Qed.

(** X15: swapping the two paths swaps the two parts of the output and
    changes nothing else: the run ends in the same way, and when it ends
    normally the heading and section of each file are the same in both
    runs, in the other order. *)
Theorem compare_swap fs prog a1 a2 :
  (∃ sec1 sec2,
     Compare.main fs [prog; a1; a2] =
       (Compare.header a1 :: sec1 ++ Compare.header a2 :: sec2, Ret ()) ∧
     Compare.main fs [prog; a2; a1] =
       (Compare.header a2 :: sec2 ++ Compare.header a1 :: sec1, Ret ())) ∨
  (∃ e,
     Compare.main fs [prog; a1; a2] = ([], Raise e) ∧
     Compare.main fs [prog; a2; a1] = ([], Raise e)).
Proof.
  rewrite !compare_main_unfold.
  destruct (fs a1) as [c1|], (fs a2) as [c2|];
    [|right; by exists IOError..].
  pose proof (load_cases c1) as H1. pose proof (load_cases c2) as H2.
  destruct (decide (well_formed c1)) as [_|_], (decide (well_formed c2)) as [_|_].
  - destruct H1 as [d1 ->], H2 as [d2 ->]. left. by eexists _, _.
  - destruct H1 as [d1 ->]. rewrite H2. right. by exists ValueError.
  - destruct H2 as [d2 ->]. rewrite H1. right. by exists ValueError.
  - rewrite H1, H2. right. by exists ValueError.
Qed.

(** ** Tables without [include] lines *)

Lemma records_lines_without_includes argv rec path lines :
  Forall (λ ln, is_include_line ln = false) lines →
  ∃ recs, Closure.records_lines argv rec path lines = Ret recs ∧
          Forall (λ r, file r.2 = path) recs.
Proof.
  induction 1 as [|ln lines Hln _ (rest & Hrest & Hfiles)]; [by exists []|].
  cbn [Closure.records_lines]. rewrite Hrest. unfold Closure.records_body.
  unfold is_include_line in Hln.
  destruct (Py.split_ws ln) as [|l0 fields]; [by exists rest|].
  destruct (Py.startswith l0 "#"); [by exists rest|].
  cbn [negb andb] in Hln. rewrite Hln.
  destruct fields as [|l1 [|l2 fields]]; [by exists rest..|].
  eexists. split; [done|]. by constructor.
Qed.

(** X16: on a root table without [include] lines the scanner needs no
    other file and always ends, with or without a second argument: the run
    ends normally, and the producers it reports are all of the root
    table. *)
Theorem scanner_without_includes fs argv root content fuel :
  argv !! 1 = Some root →
  fs root = Some content →
  Forall (λ ln, is_include_line ln = false) (Py.readlines content) →
  ∃ result : gmap string (list producer),
    Duplication.main fs argv (S fuel) = (Duplication.report result, Ret ()) ∧
    ∀ code ps p, result !! code = Some ps → p ∈ ps → file p = root.
Proof.
  intros Hroot Hcontent Hlines.
  destruct (records_lines_without_includes argv (Closure.records fs argv fuel)
              root (Py.readlines content) Hlines) as (recs & Hrecs & Hfiles).
  exists (foldl add_record ∅ recs). split.
  - unfold Duplication.main, index. rewrite Hroot. cbn [mbind res_bind].
    rewrite scanFile_records. cbn [Closure.records]. unfold open.
    rewrite Hcontent. cbn [mbind res_bind]. by rewrite Hrecs.
  - intros code ps p. rewrite add_records_lookup, lookup_empty.
    destruct (producers code recs) as [|p' ps'] eqn:Hps; [done|].
    intros [= <-] Hp. rewrite <-Hps in Hp. unfold producers in Hp.
    apply list_elem_of_fmap in Hp as [[c q] [-> [_ Hin]%list_elem_of_filter]].
    by apply (proj1 (Forall_forall _ _) Hfiles (c, q)).
Qed.

Lemma scanner_without_includes_witness :
  ∃ result : gmap string (list producer),
    Duplication.main (files [("b.tbl", b_tbl)]) ["duplication.py"; "b.tbl"] 1 =
      (Duplication.report result, Ret ()) ∧
    ∀ code ps p, result !! code = Some ps → p ∈ ps → file p = "b.tbl".
Proof.
  apply (scanner_without_includes _ _ "b.tbl" b_tbl 0); try reflexivity.
  apply (bool_decide_unpack _). vm_compute. exact I.
Defined.

(** ** The records of the root table and the finder *)

Lemma own_hit_found code path lines n i ln :
  lines !! i = Some ln → is_hit code ln = true →
  ∃ k, k ≤ i ∧ own_hit code path lines n = path +:+ " " +:+ Py.str_of_nat (n + k + 1).
Proof.
  revert n i. induction lines as [|ln' lines IH]; intros n i; [done|].
  cbn [own_hit]. destruct (is_hit code ln') eqn:Hhit'.
  { intros _ _. exists 0. split; [lia|]. by rewrite Nat.add_0_r. }
  destruct i as [|i]; [intros [= ->]; congruence|].
  intros Hi Hhit. destruct (IH (n + 1) i Hi Hhit) as (k & Hk & ->).
  exists (S k). split; [lia|]. do 3 f_equal. lia.
Qed.

(** X17: the finder finds what the root table itself maps.  When line
    [i + 1] of the root table is a record of three fields or more whose
    third field is the code, and the run ends normally, the finder prints
    the root table with a line number that is at most [i + 1]: the number
    of that record or of an earlier hit, never an empty line. *)
Theorem finder_finds_root_record fs argv fuel code root content i ln l0 l1 fields out :
  argv !! 1 = Some code →
  argv !! 2 = Some root →
  fs root = Some content →
  Py.readlines content !! i = Some ln →
  Py.split_ws ln = l0 :: l1 :: code :: fields →
  Py.startswith l0 "#" = false →
  Py.startswith l0 "include" = false →
  FindCombination.main fs argv fuel = (out, Ret ()) →
  ∃ k, k ≤ i ∧ out = [root +:+ " " +:+ Py.str_of_nat (k + 1)].
Proof.
  intros Hcode Hroot Hcontent Hi Hsplit Hcomment Hinclude Hmain.
  revert Hmain. unfold FindCombination.main, index. rewrite Hroot.
  cbn [mbind res_bind]. destruct fuel as [|fuel]; [done|].
  cbn [FindCombination.scan]. unfold open. rewrite Hcontent.
  cbn [mbind res_bind].
  destruct (FindCombination.scan_loop _ _ _ _ _) as [f| |] eqn:Hloop; [|done..].
  pose proof (scan_loop_own _ _ _ _ _ _ _ Hcode Hloop) as Hown.
  assert (is_hit code ln = true) as Hhit.
  { unfold is_hit. rewrite Hsplit, Hcomment, Hinclude. cbn [negb andb].
    rewrite (String.eqb_refl code). apply orb_true_r. }
  destruct (own_hit_found code root _ 0 i ln Hi Hhit) as (k & Hk & Hfound).
  exists k. split; [done|]. rewrite Hfound in Hown.
  destruct f; cbn [mbind res_bind] in Hmain; injection Hmain as <-;
    f_equal; exact Hown.
Qed.

Lemma finder_finds_root_record_witness :
  ∃ k, k ≤ 1 ∧ ["a.tbl 2"] = ["a.tbl" +:+ " " +:+ Py.str_of_nat (k + 1)].
Proof.
  apply (finder_finds_root_record tables_ab ["find_combination.py"; "61"; "a.tbl"]
           2 "61" "a.tbl" a_tbl 1 ("char \x61 61" +:+ nl) "char" "\x61" []);
    reflexivity.
Defined.
